(** * Academic Achievers: the listing filters, the eligibility matcher,
      the checklist storage and the admin edit of [app.py]

    A shallow embedding of the request handlers of [app.py] and the
    properties of them that the specification states.

    Modelling conventions.
    - A Python [str] is the sequence of its code points; the model covers
      the code points below 256, one [ascii] each.  [strip], [lower],
      [splitlines] and the substring test are Python's on that range.
    - A Python [float] is kept abstract behind the interface [PyFloat]:
      the handlers only parse floats, compare them with [<] and test them
      for truth.  Every general statement holds for every implementation of
      the interface; [DecimalFloat] is a small instance to run examples on.
    - An exception is a value [Raise e] of the type [result]; [try]/[except]
      is a match on it.
    - A table is the list of its rows in the order the store returns them;
      a [SELECT ... WHERE] is a [filter] of that list. *)

From Stdlib Require Import ZArith QArith Bool List String Ascii Lia.
From Stdlib Require Import Sorting.Sorted Sorting.Permutation.
Import ListNotations.

Set Warnings "-register-all".

Local Open Scope string_scope.
Local Open Scope Z_scope.
Local Open Scope list_scope.

(* ================================================================= *)
(** ** Python strings *)

Module Str.

Definition code (c : ascii) : N := N_of_ascii c.

(** [str.isspace] on one character, as [str.strip] uses it. *)
Definition is_space (c : ascii) : bool :=
  let n := code c in
  (((9 <=? n) && (n <=? 13)) || ((28 <=? n) && (n <=? 32))
   || (n =? 133) || (n =? 160))%N.

(** The line boundaries of [str.splitlines]. *)
Definition is_linebreak (c : ascii) : bool :=
  let n := code c in
  (((10 <=? n) && (n <=? 13)) || ((28 <=? n) && (n <=? 30))
   || (n =? 133))%N.

Definition is_upper (c : ascii) : bool :=
  let n := code c in
  (((65 <=? n) && (n <=? 90))
   || ((192 <=? n) && (n <=? 222) && negb (n =? 215)))%N.

Definition lower_char (c : ascii) : ascii :=
  if is_upper c then ascii_of_N (code c + 32) else c.

(** [s.lower()] *)
Fixpoint lower (s : string) : string :=
  match s with
  | EmptyString => EmptyString
  | String c s' => String (lower_char c) (lower s')
  end.

Fixpoint lstrip (s : string) : string :=
  match s with
  | EmptyString => EmptyString
  | String c s' => if is_space c then lstrip s' else s
  end.

Fixpoint rstrip (s : string) : string :=
  match s with
  | EmptyString => EmptyString
  | String c s' =>
      match rstrip s' with
      | EmptyString => if is_space c then EmptyString else String c EmptyString
      | r => String c r
      end
  end.

(** [s.strip()] *)
Definition strip (s : string) : string := lstrip (rstrip s).

(** The truth value of a string: [if s:]. *)
Definition truthy (s : string) : bool :=
  match s with EmptyString => false | _ => true end.

(** [s.startswith(q)] *)
Fixpoint startswith (s q : string) {struct q} : bool :=
  match q with
  | EmptyString => true
  | String c q' =>
      match s with
      | EmptyString => false
      | String d s' => Ascii.eqb c d && startswith s' q'
      end
  end.

(** [q in s]: [q] starts at some position of [s]. *)
Fixpoint contains (s q : string) : bool :=
  startswith s q ||
  match s with
  | EmptyString => false
  | String _ s' => contains s' q
  end.

(** [s.replace(a, b)] for single characters [a] and [b]. *)
Fixpoint replace_char (a b : ascii) (s : string) : string :=
  match s with
  | EmptyString => EmptyString
  | String c s' =>
      String (if Ascii.eqb c a then b else c) (replace_char a b s')
  end.

(** [sep.join(items)] *)
Fixpoint join (sep : string) (items : list string) : string :=
  match items with
  | [] => EmptyString
  | [x] => x
  | x :: rest => (x ++ sep ++ join sep rest)%string
  end.

(** [s.splitlines()]: the text is cut at every line boundary, a carriage
    return followed by a line feed counts as one boundary, and no empty
    last line is produced when the text ends in a boundary. *)
Fixpoint splitlines (s : string) : list string :=
  match s with
  | EmptyString => []
  | String c s' =>
      if is_linebreak c then
        match c, s' with
        | "013"%char, String "010"%char s'' => EmptyString :: splitlines s''
        | _, _ => EmptyString :: splitlines s'
        end
      else
        match splitlines s' with
        | [] => [String c EmptyString]
        | l :: ls => String c l :: ls
        end
  end.

Definition nl : string := String "010"%char EmptyString.

End Str.

(* ================================================================= *)
(** ** Dates: [datetime] and [strptime] with the format [%Y-%m-%d] *)

Record datetime : Type := {
  year : Z; month : Z; day : Z;
  hour : Z; minute : Z; second : Z; microsecond : Z
}.

Definition datetime_min : datetime :=
  {| year := 1; month := 1; day := 1;
     hour := 0; minute := 0; second := 0; microsecond := 0 |}.

Definition datetime_max : datetime :=
  {| year := 9999; month := 12; day := 31;
     hour := 23; minute := 59; second := 59; microsecond := 999999 |}.

(** Python compares two datetimes as the tuples of their fields. *)
Definition dt_fields (d : datetime) : list Z :=
  [year d; month d; day d; hour d; minute d; second d; microsecond d].

Fixpoint lex_lt (a b : list Z) : bool :=
  match a, b with
  | [], [] => false
  | [], _ :: _ => true
  | _ :: _, [] => false
  | x :: a', y :: b' =>
      if x <? y then true else if y <? x then false else lex_lt a' b'
  end.

(** [a < b] on datetimes. *)
Definition datetime_lt (a b : datetime) : bool :=
  lex_lt (dt_fields a) (dt_fields b).

Module Strptime.

Definition digit (c : ascii) : option Z :=
  let n := Str.code c in
  if ((48 <=? n) && (n <=? 57))%N then Some (Z.of_N n - 48) else None.

Definition in_range (lo hi : Z) (c : ascii) : option Z :=
  match digit c with
  | Some v => if (lo <=? v) && (v <=? hi) then Some v else None
  | None => None
  end.

(** [%Y]: four digits. *)
Definition directive_Y (s : string) : option (Z * string) :=
  match s with
  | String a (String b (String c (String d rest))) =>
      match digit a, digit b, digit c, digit d with
      | Some a, Some b, Some c, Some d =>
          Some (((a * 10 + b) * 10 + c) * 10 + d, rest)
      | _, _, _, _ => None
      end
  | _ => None
  end.

(** One digit in a range at the head of the text. *)
Definition one (lo hi : Z) (s : string) : option (Z * string) :=
  match s with
  | String c rest =>
      match in_range lo hi c with
      | Some v => Some (v, rest)
      | None => None
      end
  | EmptyString => None
  end.

(** Two digits, each in a range, at the head of the text. *)
Definition two (lo1 hi1 lo2 hi2 : Z) (s : string) : option (Z * string) :=
  match one lo1 hi1 s with
  | Some (a, rest) =>
      match one lo2 hi2 rest with
      | Some (b, rest') => Some (a * 10 + b, rest')
      | None => None
      end
  | None => None
  end.

(** The first alternative that matches. *)
Fixpoint first_of (alts : list (string -> option (Z * string))) (s : string)
  : option (Z * string) :=
  match alts with
  | [] => None
  | p :: alts' =>
      match p s with
      | Some r => Some r
      | None => first_of alts' s
      end
  end.

(** [%m]: 1[0-2] | 0[1-9] | [1-9] *)
Definition directive_m : string -> option (Z * string) :=
  first_of [two 1 1 0 2; two 0 0 1 9; one 1 9].

Definition space_then_digit (s : string) : option (Z * string) :=
  match s with
  | String " "%char rest => one 1 9 rest
  | _ => None
  end.

(** [%d]: 3[0-1] | [1-2][0-9] | 0[1-9] | [1-9] | a space and [1-9] *)
Definition directive_d : string -> option (Z * string) :=
  first_of [two 3 3 0 1; two 1 2 0 9; two 0 0 1 9; one 1 9; space_then_digit].

Definition literal (c : ascii) (s : string) : option string :=
  match s with
  | String c' rest => if Ascii.eqb c c' then Some rest else None
  | EmptyString => None
  end.

Definition is_leap (y : Z) : bool :=
  (y mod 4 =? 0) && (negb (y mod 100 =? 0) || (y mod 400 =? 0)).

Definition days_in_month (y m : Z) : Z :=
  if m =? 2 then (if is_leap y then 29 else 28)
  else if (m =? 4) || (m =? 6) || (m =? 9) || (m =? 11) then 30
  else 31.

(** The dates the [datetime] constructor accepts. *)
Definition valid_date (y m d : Z) : bool :=
  (1 <=? y) && (y <=? 9999) && (1 <=? m) && (m <=? 12)
  && (1 <=? d) && (d <=? days_in_month y m).

(** The text matched against the pattern of [%Y-%m-%d]: the fields, when
    the pattern matches a prefix and nothing is left over. *)
Definition match_Ymd (s : string) : option (Z * Z * Z) :=
  match directive_Y s with
  | Some (y, s1) =>
      match literal "-" s1 with
      | Some s2 =>
          match directive_m s2 with
          | Some (m, s3) =>
              match literal "-" s3 with
              | Some s4 =>
                  match directive_d s4 with
                  | Some (d, EmptyString) => Some (y, m, d)
                  | _ => None
                  end
              | None => None
              end
          | None => None
          end
      | None => None
      end
  | None => None
  end.

(** [datetime.strptime(s, "%Y-%m-%d")]: [None] where it raises. *)
Definition strptime_Ymd (s : string) : option datetime :=
  match match_Ymd s with
  | Some (y, m, d) =>
      if valid_date y m d then
        Some {| year := y; month := m; day := d;
                hour := 0; minute := 0; second := 0; microsecond := 0 |}
      else None
  | None => None
  end.

End Strptime.

(* ================================================================= *)
(** ** [list.sort] *)

Section Sort.

Context {A K : Type} (lt : K -> K -> bool) (key : A -> K).

(** [x], which stood before every element of the sorted [l], goes in
    front of the first element whose key is not smaller than its own. *)
Fixpoint insert (x : A) (l : list A) : list A :=
  match l with
  | [] => [x]
  | y :: l' => if lt (key y) (key x) then y :: insert x l' else x :: y :: l'
  end.

(** [l.sort(key=key)]: ascending, elements with equal keys keep their
    order. *)
Fixpoint sort (l : list A) : list A :=
  match l with
  | [] => []
  | x :: l' => insert x (sort l')
  end.

(** [l.sort(key=key, reverse=True)]: the list is reversed, sorted and
    reversed again, so that elements with equal keys keep their order. *)
Definition sort_reverse (l : list A) : list A := rev (sort (rev l)).

End Sort.

(* ================================================================= *)
(** ** Exceptions *)

Inductive exn : Type :=
| ValueError | TypeError | AttributeError | OverflowError | BadRequestKeyError.

(** The outcome of a computation that may raise. *)
Inductive result (A : Type) : Type :=
| Ok (a : A)
| Raise (e : exn).
Arguments Ok {A} a.
Arguments Raise {A} e.

Definition bind {A B : Type} (c : result A) (k : A -> result B) : result B :=
  match c with
  | Ok a => k a
  | Raise e => Raise e
  end.

Notation "x <- c ;; k" := (bind c (fun x => k))
  (at level 61, c at next level, right associativity).

Definition is_ok {A : Type} (c : result A) : bool :=
  match c with Ok _ => true | Raise _ => false end.

(* ================================================================= *)
(** ** Python floats *)

(** What the handlers use of [float]: the constructor [float(x)] on a
    string, a byte string and an integer ([None] where Python raises
    [ValueError], respectively [OverflowError]), the comparison [a < b]
    the truth value [bool(a)] and the test for a NaN, which the store
    keeps as [NULL]. *)
Class PyFloat : Type := {
  float : Type;
  float_lt : float -> float -> bool;
  float_of_str : string -> option float;
  float_of_bytes : string -> option float;
  float_of_int : Z -> option float;
  float_truthy : float -> bool;
  float_is_nan : float -> bool
}.

(* ================================================================= *)
(** ** Request data *)

(** A form, a query string, a file set or a decoded JSON object: the
    entries in order, looked up by name.  A form answers with the first
    value sent under the name; the keys of an object are distinct. *)
Fixpoint lookup {V : Type} (k : string) (d : list (string * V)) : option V :=
  match d with
  | [] => None
  | (k', v) :: d' => if String.eqb k k' then Some v else lookup k d'
  end.

(** [d.get(k, default)] *)
Definition get {V : Type} (k : string) (default : V) (d : list (string * V)) : V :=
  match lookup k d with
  | Some v => v
  | None => default
  end.

(** [request.form[k]]: a missing field is a bad request. *)
Definition getitem (k : string) (d : list (string * string)) : result string :=
  match lookup k d with
  | Some v => Ok v
  | None => Raise BadRequestKeyError
  end.

Definition Form : Type := list (string * string).

Inductive method : Type := GET | POST.

Section Handlers.

Context {F : PyFloat}.

(** A decoded JSON value. *)
Inductive json : Type :=
| JNull
| JBool (b : bool)
| JInt (z : Z)
| JFloat (f : float)
| JStr (s : string)
| JArr (l : list json)
| JObj (d : list (string * json)).

(** The truth value of a JSON value: [if v:]. *)
Definition json_truthy (v : json) : bool :=
  match v with
  | JNull => false
  | JBool b => b
  | JInt z => negb (z =? 0)
  | JFloat f => float_truthy f
  | JStr s => Str.truthy s
  | JArr l => match l with [] => false | _ => true end
  | JObj d => match d with [] => false | _ => true end
  end.

(** [v is not None] *)
Definition json_is_not_None (v : json) : bool :=
  match v with JNull => false | _ => true end.

(** [float(s)] on a string. *)
Definition py_float_str (s : string) : result float :=
  match float_of_str s with
  | Some f => Ok f
  | None => Raise ValueError
  end.

(** [float(v)] on a JSON value. *)
Definition py_float_json (v : json) : result float :=
  match v with
  | JNull => Raise TypeError
  | JBool b =>
      match float_of_int (if b then 1 else 0) with
      | Some f => Ok f
      | None => Raise OverflowError
      end
  | JInt z =>
      match float_of_int z with
      | Some f => Ok f
      | None => Raise OverflowError
      end
  | JFloat f => Ok f
  | JStr s => py_float_str s
  | JArr _ | JObj _ => Raise TypeError
  end.

(** [v.strip()] on a JSON value: only a string has the method. *)
Definition json_strip (v : json) : result string :=
  match v with
  | JStr s => Ok (Str.strip s)
  | _ => Raise AttributeError
  end.

(* =============================================================== *)
(** ** The listing store *)

(** What a column of declared type [REAL] can hold. *)
Inductive sqlval : Type :=
| SqlNull
| SqlReal (f : float)
| SqlText (s : string)
| SqlBlob (b : string).

Definition sql_is_not_None (v : sqlval) : bool :=
  match v with SqlNull => false | _ => true end.

(** [float(v)] on a value read from the store. *)
Definition py_float_sql (v : sqlval) : result float :=
  match v with
  | SqlNull => Raise TypeError
  | SqlReal f => Ok f
  | SqlText s => py_float_str s
  | SqlBlob b =>
      match float_of_bytes b with
      | Some f => Ok f
      | None => Raise ValueError
      end
  end.

(** A row of the table [scholarships]; [col_x r] is [r["x"]]. *)
Record Scholarship : Type := {
  col_id : Z;
  col_name : string;
  col_country : string;
  col_university : option string;
  col_level : option string;
  col_field : option string;
  col_tags : option string;
  col_deadline : option string;
  col_link : string;
  col_checklist : option string;
  col_min_gpa : sqlval;
  col_is_international_only : Z;
  col_image_filename : option string;
  col_brochure_filename : option string
}.

Definition Table : Type := list Scholarship.

(* =============================================================== *)
(** ** The eligibility matcher *)

(** The clauses that the handlers append to [WHERE 1=1], each with its
    parameter. *)
Inductive clause : Type :=
| CountryEq (p : string)
| LevelEq (p : string)
| FieldEq (p : string)
| InternationalOnly.

Definition text_eq (col : option string) (p : string) : bool :=
  match col with
  | Some s => String.eqb s p
  | None => false
  end.

Definition clause_holds (r : Scholarship) (c : clause) : bool :=
  match c with
  | CountryEq p => String.eqb (col_country r) p
  | LevelEq p => text_eq (col_level r) p
  | FieldEq p => text_eq (col_field r) p
  | InternationalOnly => col_is_international_only r =? 1
  end.

(** [db.execute(query, params).fetchall()] for a conjunction of clauses. *)
Definition select_where (query : list clause) (db : Table) : list Scholarship :=
  filter (fun r => forallb (clause_holds r) query) db.

(** The query both handlers build from the criteria they extracted. *)
Definition build_query (country level field : string) (is_international : bool)
  : list clause :=
  let query := [] in
  let query := if Str.truthy country then query ++ [CountryEq country] else query in
  let query := if Str.truthy level then query ++ [LevelEq level] else query in
  let query := if Str.truthy field then query ++ [FieldEq field] else query in
  let query := if is_international then query ++ [InternationalOnly] else query in
  query.

(** The GPA gate of the form handler: [true] when the loop reaches
    [continue] for the row. *)
Definition gate_excludes (gpa : option float) (r : Scholarship) : bool :=
  match gpa with
  | Some g =>
      if sql_is_not_None (col_min_gpa r) then
        match py_float_sql (col_min_gpa r) with
        | Ok m => float_lt g m
        | Raise _ => false
        end
      else false
  | None => false
  end.

(** The rows the form handler keeps, from the criteria it extracted. *)
Definition eligibility_results (country level field : string)
    (gpa : option float) (is_international : bool) (db : Table)
  : list Scholarship :=
  let rows := select_where (build_query country level field is_international) db in
  filter (fun r => negb (gate_excludes gpa r)) rows.

(** The branch [request.method == "POST"] of [eligibility]. *)
Definition eligibility_post (form : Form) (db : Table) : result (list Scholarship) :=
  let country := Str.strip (get "country" "" form) in
  let level := Str.strip (get "level" "" form) in
  let field := Str.strip (get "field" "" form) in
  let gpa_raw := Str.strip (get "gpa" "" form) in
  gpa <- (if Str.truthy gpa_raw
          then (g <- py_float_str gpa_raw ;; Ok (Some g))
          else Ok None) ;;
  let is_international :=
    match lookup "is_international" form with
    | Some v => String.eqb v "on"
    | None => false
    end in
  Ok (eligibility_results country level field gpa is_international db).

(** [eligibility]: the listings handed to the template as [results].  The
    lists of countries, levels and fields that fill the form's menus do not
    depend on the request and are left out. *)
Definition eligibility (m : method) (form : Form) (db : Table)
  : result (list Scholarship) :=
  match m with
  | POST => eligibility_post form db
  | GET => Ok []
  end.

(** The GPA gate of the JSON handler. *)
Definition api_gate_excludes (gpa : json) (r : Scholarship) : bool :=
  let min_gpa := col_min_gpa r in
  if json_is_not_None gpa && sql_is_not_None min_gpa then
    match (a <- py_float_json gpa ;; b <- py_float_sql min_gpa ;; Ok (float_lt a b)) with
    | Ok lt => lt
    | Raise _ => false
    end
  else false.

(** The rows the JSON handler keeps, from the criteria it extracted. *)
Definition api_eligibility_rows (country level field : string)
    (gpa : json) (is_international : json) (db : Table) : list Scholarship :=
  let rows :=
    select_where
      (build_query country level field (json_truthy is_international)) db in
  filter (fun r => negb (api_gate_excludes gpa r)) rows.

(** An entry of the JSON answer. *)
Record ApiListing : Type := {
  api_id : Z;
  api_name : string;
  api_country : string;
  api_university : option string;
  api_level : option string;
  api_field : option string;
  api_tags : option string;
  api_deadline : option string;
  api_min_gpa : sqlval;
  api_is_international_only : Z;
  api_link : string
}.

Definition api_listing (r : Scholarship) : ApiListing :=
  {| api_id := col_id r;
     api_name := col_name r;
     api_country := col_country r;
     api_university := col_university r;
     api_level := col_level r;
     api_field := col_field r;
     api_tags := col_tags r;
     api_deadline := col_deadline r;
     api_min_gpa := col_min_gpa r;
     api_is_international_only := col_is_international_only r;
     api_link := col_link r |}.

(** [request.get_json() or {}] for a body that decodes to [body]; a value
    that is true and no object has no method [get]. *)
Definition request_data (body : json) : result (list (string * json)) :=
  match body with
  | JObj d => Ok d
  | _ => if json_truthy body then Raise AttributeError else Ok []
  end.

(** The rows [api_eligibility] selects for a decoded JSON body. *)
Definition api_eligibility_select (body : json) (db : Table)
  : result (list Scholarship) :=
  data <- request_data body ;;
  country <- json_strip (get "country" (JStr "") data) ;;
  level <- json_strip (get "level" (JStr "") data) ;;
  field <- json_strip (get "field" (JStr "") data) ;;
  let gpa := get "gpa" JNull data in
  let is_international := get "is_international" (JBool false) data in
  Ok (api_eligibility_rows country level field gpa is_international db).

(** [api_eligibility]: the JSON array it answers with. *)
Definition api_eligibility (body : json) (db : Table) : result (list ApiListing) :=
  rows <- api_eligibility_select body db ;;
  Ok (map api_listing rows).

(* =============================================================== *)
(** ** The checklist, stored as text *)

(** [(r["checklist"] or "").splitlines() if r["checklist"] else []] *)
Definition read_checklist (stored : option string) : list string :=
  match stored with
  | Some text => if Str.truthy text then Str.splitlines text else []
  | None => []
  end.

(** An entry of [seed_scholarships.json], with the keys the loader reads;
    [deadline] and [checklist] may be missing. *)
Record SeedEntry : Type := {
  seed_name : string;
  seed_country : string;
  seed_deadline : option string;
  seed_link : string;
  seed_checklist : option (list string)
}.

(** The row that the [INSERT] of the loader creates; the columns it does
    not name take their defaults. *)
Definition seed_row (id : Z) (s : SeedEntry) : Scholarship :=
  let checklist :=
    Str.join Str.nl (match seed_checklist s with Some l => l | None => [] end) in
  {| col_id := id;
     col_name := seed_name s;
     col_country := seed_country s;
     col_university := None;
     col_level := None;
     col_field := None;
     col_tags := None;
     col_deadline := seed_deadline s;
     col_link := seed_link s;
     col_checklist := Some checklist;
     col_min_gpa := SqlNull;
     col_is_international_only := 0;
     col_image_filename := None;
     col_brochure_filename := None |}.

Fixpoint insert_seeds (next_id : Z) (data : list SeedEntry) (db : Table) : Table :=
  match data with
  | [] => db
  | s :: data' => insert_seeds (next_id + 1) data' (db ++ [seed_row next_id s])
  end.

(** [seed_scholarships_from_json]: [file] is the decoded seed file when it
    exists, [next_id] the identifier the store gives to the next row. *)
Definition seed_scholarships_from_json (file : option (list SeedEntry))
    (next_id : Z) (db : Table) : Table :=
  match db with
  | _ :: _ => db
  | [] =>
      match file with
      | None => db
      | Some data => insert_seeds next_id data db
      end
  end.

(** An entry of the answer of [api_scholarships]. *)
Record ApiScholarship : Type := {
  as_id : Z;
  as_name : string;
  as_country : string;
  as_deadline : option string;
  as_link : string;
  as_checklist : list string
}.

Definition api_scholarships (db : Table) : list ApiScholarship :=
  map (fun r =>
         {| as_id := col_id r;
            as_name := col_name r;
            as_country := col_country r;
            as_deadline := col_deadline r;
            as_link := col_link r;
            as_checklist := read_checklist (col_checklist r) |}) db.

(* =============================================================== *)
(** ** The browse page *)

(** [item = dict(r)] with the checklist replaced by its lines. *)
Record Item : Type := {
  item_row : Scholarship;
  item_checklist : list string
}.

(** The local function [parse_date]: every exception gives [None]; the
    argument is [None] for a [NULL] deadline, on which [strptime] raises. *)
Definition parse_date (s : option string) : option datetime :=
  match s with
  | Some text => Strptime.strptime_Ymd text
  | None => None
  end.

(** [x or default]; a datetime is always true. *)
Definition or_else (x : option datetime) (default : datetime) : datetime :=
  match x with
  | Some d => d
  | None => default
  end.

Definition key_asc (s : Item) : datetime :=
  or_else (parse_date (col_deadline (item_row s))) datetime_max.

Definition key_desc (s : Item) : datetime :=
  or_else (parse_date (col_deadline (item_row s))) datetime_min.

(** The filters of the browse page, on the extracted [q] and [country]. *)
Definition filter_items (q country : string) (items : list Item) : list Item :=
  let items :=
    if Str.truthy q
    then filter (fun s => Str.contains (Str.lower (col_name (item_row s))) q) items
    else items in
  let items :=
    if Str.truthy country
    then filter (fun s => Str.contains (Str.lower (col_country (item_row s))) country) items
    else items in
  items.

Definition sort_items (sort_key : string) (items : list Item) : list Item :=
  if String.eqb sort_key "deadline_asc" then sort datetime_lt key_asc items
  else if String.eqb sort_key "deadline_desc" then sort_reverse datetime_lt key_desc items
  else items.

(** [scholarships]: the items handed to the template. *)
Definition scholarships (args : Form) (db : Table) : list Item :=
  let q := Str.lower (Str.strip (get "q" "" args)) in
  let country := Str.lower (Str.strip (get "country" "" args)) in
  let sort_key := get "sort" "" args in
  let items :=
    map (fun r => {| item_row := r;
                     item_checklist := read_checklist (col_checklist r) |}) db in
  sort_items sort_key (filter_items q country items).

(* =============================================================== *)
(** ** The admin edit *)

(** An uploaded file. *)
Record FileStorage : Type := {
  filename : string;
  file_content : string
}.

(** The state the admin handlers change: the table and the upload folder
    (file name and content, the latest write first). *)
Record Store : Type := {
  scholarships_table : Table;
  upload_folder : list (string * string)
}.

(** [f and f.filename]: a file was sent and it has a name. *)
Definition uploaded (f : option FileStorage) : option FileStorage :=
  match f with
  | Some fs => if Str.truthy (filename fs) then Some fs else None
  | None => None
  end.

(** How a Python [float] or [None] is bound to a parameter of the query;
    the store keeps a NaN as [NULL]. *)
Definition sql_of_float (x : option float) : sqlval :=
  match x with
  | Some f => if float_is_nan f then SqlNull else SqlReal f
  | None => SqlNull
  end.

Definition upload_name (prefix name : string) (fs : FileStorage) : string :=
  (prefix ++ Str.replace_char " " "_" name ++ "_" ++ filename fs)%string.

(** [SELECT * FROM scholarships WHERE id=?] then [fetchone()] *)
Definition find_by_id (sid : Z) (db : Table) : option Scholarship :=
  find (fun r => col_id r =? sid) db.

(** [UPDATE scholarships SET ... WHERE id=?] *)
Definition update_by_id (sid : Z) (new : Scholarship -> Scholarship) (db : Table)
  : Table :=
  map (fun r => if col_id r =? sid then new r else r) db.

(** The fields [edit_scholarship] extracts from the form. *)
Record Fields : Type := {
  f_name : string;
  f_country : string;
  f_university : string;
  f_level : string;
  f_field : string;
  f_tags : string;
  f_deadline : option string;
  f_link : string;
  f_checklist : string;
  f_min_gpa : option float;
  f_is_international_only : Z
}.

Definition extract_fields (form : Form) : result Fields :=
  name <- getitem "name" form ;;
  let name := Str.strip name in
  country <- getitem "country" form ;;
  let country := Str.strip country in
  let university := Str.strip (get "university" "" form) in
  let level := Str.strip (get "level" "" form) in
  let field := Str.strip (get "field" "" form) in
  let tags := Str.strip (get "tags" "" form) in
  let deadline :=
    let d := Str.strip (get "deadline" "" form) in
    if Str.truthy d then Some d else None in
  link <- getitem "link" form ;;
  let link := Str.strip link in
  let checklist := Str.strip (get "checklist" "" form) in
  let min_gpa_raw := Str.strip (get "min_gpa" "" form) in
  min_gpa <- (if Str.truthy min_gpa_raw
              then (g <- py_float_str min_gpa_raw ;; Ok (Some g))
              else Ok None) ;;
  let is_international_only :=
    match lookup "is_international_only" form with
    | Some v => if String.eqb v "on" then 1 else 0
    | None => 0
    end in
  Ok {| f_name := name; f_country := country; f_university := university;
        f_level := level; f_field := field; f_tags := tags;
        f_deadline := deadline; f_link := link; f_checklist := checklist;
        f_min_gpa := min_gpa;
        f_is_international_only := is_international_only |}.

(** The row the [UPDATE] writes in place of [old]. *)
Definition updated_row (fl : Fields) (image_filename brochure_filename : option string)
    (old : Scholarship) : Scholarship :=
  {| col_id := col_id old;
     col_name := f_name fl;
     col_country := f_country fl;
     col_university := Some (f_university fl);
     col_level := Some (f_level fl);
     col_field := Some (f_field fl);
     col_tags := Some (f_tags fl);
     col_deadline := f_deadline fl;
     col_link := f_link fl;
     col_checklist := Some (f_checklist fl);
     col_min_gpa := sql_of_float (f_min_gpa fl);
     col_is_international_only := f_is_international_only fl;
     col_image_filename := image_filename;
     col_brochure_filename := brochure_filename |}.

(** [edit_scholarship], behind the check of [admin_required]: the store
    after the request. *)
Definition edit_scholarship (is_admin : bool) (sid : Z) (m : method)
    (form : Form) (files : list (string * FileStorage)) (st : Store)
  : result Store :=
  if negb is_admin then Ok st
  else
    match find_by_id sid (scholarships_table st) with
    | None => Ok st
    | Some r =>
        match m with
        | GET => Ok st
        | POST =>
            fl <- extract_fields form ;;
            let image_file := lookup "image_file" files in
            let brochure_file := lookup "brochure_file" files in
            let image_filename := col_image_filename r in
            let brochure_filename := col_brochure_filename r in
            let folder := upload_folder st in
            let '(image_filename, folder) :=
              match uploaded image_file with
              | Some fs =>
                  let n := upload_name "img_" (f_name fl) fs in
                  (Some n, (n, file_content fs) :: folder)
              | None => (image_filename, folder)
              end in
            let '(brochure_filename, folder) :=
              match uploaded brochure_file with
              | Some fs =>
                  let n := upload_name "doc_" (f_name fl) fs in
                  (Some n, (n, file_content fs) :: folder)
              | None => (brochure_filename, folder)
              end in
            Ok {| scholarships_table :=
                    update_by_id sid
                      (updated_row fl image_filename brochure_filename)
                      (scholarships_table st);
                  upload_folder := folder |}
        end
    end.

End Handlers.

(* ================================================================= *)
(** ** An instance of the float interface, to run examples on *)

Module DecimalFloat.

(** A finite value (kept exactly), an infinity or a NaN.  The instance
    reads the literals that consist of a sign, digits and a decimal
    point, [inf], [infinity] and [nan]; on those, and on text that is no
    number at all, it answers as Python does whenever the literals
    compared have at most fifteen significant digits.  Exponents and
    digit separators are not read. *)
Inductive dfloat : Type :=
| Fin (q : Q)
| Inf (negative : bool)
| NaN.

Definition lt (a b : dfloat) : bool :=
  match a, b with
  | NaN, _ | _, NaN => false
  | Fin x, Fin y => match (x ?= y)%Q with Lt => true | _ => false end
  | Fin _, Inf negative => negb negative
  | Inf negative, Fin _ => negative
  | Inf n1, Inf n2 => n1 && negb n2
  end.

Definition truthy (a : dfloat) : bool :=
  match a with
  | Fin x => negb (Qeq_bool x 0)
  | _ => true
  end.

Definition is_nan (a : dfloat) : bool :=
  match a with NaN => true | _ => false end.

(** The digits at the head of the text: their value after [acc], how
    many there are, and the rest. *)
Fixpoint digits (s : string) (acc : Z) (n : nat) : Z * nat * string :=
  match s with
  | String c s' =>
      match Strptime.digit c with
      | Some v => digits s' (acc * 10 + v) (S n)
      | None => (acc, n, s)
      end
  | EmptyString => (acc, n, s)
  end.

Definition unsigned (s : string) : option dfloat :=
  let low := Str.lower s in
  if String.eqb low "nan" then Some NaN
  else if String.eqb low "inf" || String.eqb low "infinity" then Some (Inf false)
  else
    let '(i, ni, rest) := digits s 0 0%nat in
    match rest with
    | EmptyString =>
        if Nat.eqb ni 0 then None else Some (Fin (i # 1))
    | String "."%char rest' =>
        let '(m, nf, rest'') := digits rest' i 0%nat in
        match rest'' with
        | EmptyString =>
            if Nat.eqb (ni + nf) 0 then None
            else Some (Fin (m # Z.to_pos (10 ^ Z.of_nat nf)))
        | _ => None
        end
    | _ => None
    end.

Definition negate (a : dfloat) : dfloat :=
  match a with
  | Fin x => Fin (- x)
  | Inf negative => Inf (negb negative)
  | NaN => NaN
  end.

Definition signed (s : string) : option dfloat :=
  match s with
  | String "-"%char s' => option_map negate (unsigned s')
  | String "+"%char s' => unsigned s'
  | _ => unsigned s
  end.

Definition of_str (s : string) : option dfloat := signed (Str.strip s).

(** In a byte string only the ASCII blanks are stripped. *)
Definition is_ascii_space (c : ascii) : bool :=
  let n := Str.code c in (((9 <=? n) && (n <=? 13)) || (n =? 32))%N.

Fixpoint lstrip_ascii (s : string) : string :=
  match s with
  | EmptyString => EmptyString
  | String c s' => if is_ascii_space c then lstrip_ascii s' else s
  end.

Fixpoint rstrip_ascii (s : string) : string :=
  match s with
  | EmptyString => EmptyString
  | String c s' =>
      match rstrip_ascii s' with
      | EmptyString => if is_ascii_space c then EmptyString else String c EmptyString
      | r => String c r
      end
  end.

Definition of_bytes (b : string) : option dfloat :=
  signed (lstrip_ascii (rstrip_ascii b)).

(** An integer beyond the range of a double raises [OverflowError]. *)
Definition of_int (z : Z) : option dfloat :=
  if Z.abs z <? 2 ^ 1024 then Some (Fin (z # 1)) else None.

End DecimalFloat.

#[export] Instance decimal_float : PyFloat := {|
  float := DecimalFloat.dfloat;
  float_lt := DecimalFloat.lt;
  float_of_str := DecimalFloat.of_str;
  float_of_bytes := DecimalFloat.of_bytes;
  float_of_int := DecimalFloat.of_int;
  float_truthy := DecimalFloat.truthy;
  float_is_nan := DecimalFloat.is_nan
|}.

(* ================================================================= *)
(** ** Facts about the string operations *)

Module StrFacts.
Import Str.

(** [q] occurs in [s]. *)
Definition is_substring (q s : string) : Prop :=
  exists a b : string, s = (a ++ q ++ b)%string.

Lemma append_nil_r (s : string) : (s ++ "")%string = s.
Proof. induction s as [|c s IH]; simpl; [reflexivity | now rewrite IH]. Qed.

Lemma append_assoc (a b c : string) :
  ((a ++ b) ++ c)%string = (a ++ b ++ c)%string.
Proof. induction a as [|x a IH]; simpl; [reflexivity | now rewrite IH]. Qed.

Lemma startswith_iff (s q : string) :
  startswith s q = true <-> exists b, s = (q ++ b)%string.
Proof.
  revert s; induction q as [|c q IH]; intros s; simpl.
  - split; [intros _; now exists s | reflexivity].
  - destruct s as [|d s].
    + split; [discriminate | intros [b Hb]; discriminate].
    + rewrite andb_true_iff, IH, Ascii.eqb_eq.
      split.
      * intros [-> [b ->]]. now exists b.
      * intros [b Hb]. injection Hb as -> ->. split; [reflexivity | now exists b].
Qed.

Lemma contains_iff (s q : string) :
  contains s q = true <-> is_substring q s.
Proof.
  unfold is_substring.
  induction s as [|c s IH]; simpl; rewrite orb_true_iff, startswith_iff.
  - split.
    + intros [[b Hb]|H]; [now exists "", b | discriminate].
    + intros [a [b H]]. left. destruct a; [now exists b | discriminate].
  - rewrite IH. split.
    + intros [[b Hb]|[a [b H]]]; [now exists "", b|].
      exists (String c a), b. simpl. now rewrite H.
    + intros [a [b H]]. destruct a as [|d a]; simpl in H.
      * left. now exists b.
      * right. exists a, b. congruence.
Qed.

Lemma lstrip_suffix (s : string) : exists a, s = (a ++ lstrip s)%string.
Proof.
  induction s as [|c s [a Ha]]; simpl.
  - now exists "".
  - destruct (is_space c).
    + exists (String c a). simpl. now rewrite <- Ha.
    + now exists "".
Qed.

Lemma rstrip_prefix (s : string) : exists b, s = (rstrip s ++ b)%string.
Proof.
  induction s as [|c s [b Hb]]; simpl.
  - now exists "".
  - destruct (rstrip s) as [|d r] eqn:E.
    + destruct (is_space c).
      * now exists (String c s).
      * exists s. reflexivity.
    + exists b. simpl in *. now rewrite <- Hb.
Qed.

(** The stripped text occurs in the text. *)
Lemma strip_is_substring (s : string) : is_substring (strip s) s.
Proof.
  unfold strip, is_substring.
  destruct (rstrip_prefix s) as [b Hb].
  destruct (lstrip_suffix (rstrip s)) as [a Ha].
  exists a, b. rewrite <- append_assoc, <- Ha. exact Hb.
Qed.

Lemma is_space_lower_char (c : ascii) : is_space (lower_char c) = is_space c.
Proof. destruct c as [[] [] [] [] [] [] [] []]; reflexivity. Qed.

Lemma lower_lstrip (s : string) : lower (lstrip s) = lstrip (lower s).
Proof.
  induction s as [|c s IH]; simpl; [reflexivity|].
  rewrite is_space_lower_char. destruct (is_space c); [exact IH | reflexivity].
Qed.

Lemma lower_rstrip (s : string) : lower (rstrip s) = rstrip (lower s).
Proof.
  induction s as [|c s IH]; simpl; [reflexivity|].
  rewrite <- IH, is_space_lower_char.
  destruct (rstrip s); simpl; [destruct (is_space c)|]; reflexivity.
Qed.

(** Lowering the case and stripping commute. *)
Lemma lower_strip (s : string) : lower (strip s) = strip (lower s).
Proof. unfold strip. now rewrite lower_lstrip, lower_rstrip. Qed.

Lemma truthy_false_iff (s : string) : truthy s = false <-> s = "".
Proof. destruct s; simpl; split; congruence. Qed.

Lemma truthy_true_iff (s : string) : truthy s = true <-> s <> "".
Proof. destruct s; simpl; split; congruence. Qed.

(** *** Lines *)

(** No character of the text is a line boundary. *)
Fixpoint no_linebreak (s : string) : bool :=
  match s with
  | EmptyString => true
  | String c s' => negb (is_linebreak c) && no_linebreak s'
  end.

Lemma splitlines_line_nl (l rest : string) :
  no_linebreak l = true ->
  splitlines (l ++ nl ++ rest) = l :: splitlines rest.
Proof.
  induction l as [|c l IH]; intros H.
  - reflexivity.
  - simpl in H. apply andb_true_iff in H as [Hc Hl].
    apply negb_true_iff in Hc.
    change (splitlines (String c (l ++ nl ++ rest)) = String c l :: splitlines rest).
    cbn [splitlines]. rewrite Hc, (IH Hl). reflexivity.
Qed.

Lemma splitlines_one_line (l : string) :
  no_linebreak l = true -> l <> "" -> splitlines l = [l].
Proof.
  induction l as [|c l IH]; simpl; intros H Hne.
  - congruence.
  - apply andb_true_iff in H as [Hc Hl].
    apply negb_true_iff in Hc. rewrite Hc.
    destruct l as [|d l]; [reflexivity|].
    rewrite (IH Hl); [reflexivity | discriminate].
Qed.

(** No line that [splitlines] returns contains a line boundary. *)
Lemma splitlines_no_linebreak (s l : string) :
  In l (splitlines s) -> no_linebreak l = true.
Proof.
  revert l; induction s as [|c s IH]; intros l; simpl; [tauto|].
  destruct (is_linebreak c) eqn:Ec.
  - assert (H : In l (EmptyString :: splitlines s) -> no_linebreak l = true).
    { intros [<-|H]; [reflexivity | now apply IH]. }
    assert (H' : forall t, s = String "010"%char t ->
                           In l (EmptyString :: splitlines t) ->
                           no_linebreak l = true).
    { intros t -> [<-|Ht]; [reflexivity|]. apply IH. simpl. now right. }
    destruct c as [[] [] [] [] [] [] [] []]; try exact H;
      destruct s as [|[[] [] [] [] [] [] [] []] t]; try exact H;
      now apply H'.
  - destruct (splitlines s) as [|l0 ls].
    + intros [<-|[]]. simpl. now rewrite Ec.
    + intros [<-|H].
      * simpl. rewrite Ec. apply IH. now left.
      * apply IH. now right.
Qed.

End StrFacts.

(* ================================================================= *)
(** ** Facts about [list.sort] *)

Section SortFacts.

Context {A K : Type} (lt : K -> K -> bool) (key : A -> K).

Lemma insert_In (x y : A) (l : list A) :
  In y (insert lt key x l) <-> y = x \/ In y l.
Proof.
  induction l as [|z l IH]; simpl.
  - intuition.
  - destruct (lt (key z) (key x)); simpl; rewrite ?IH; intuition.
Qed.

(** Sorting keeps the elements. *)
Lemma sort_In (y : A) (l : list A) : In y (sort lt key l) <-> In y l.
Proof.
  induction l as [|x l IH]; simpl; [reflexivity|].
  rewrite insert_In, IH. intuition.
Qed.

Lemma sort_reverse_In (y : A) (l : list A) :
  In y (sort_reverse lt key l) <-> In y l.
Proof. unfold sort_reverse. now rewrite <- in_rev, sort_In, <- in_rev. Qed.

Lemma insert_Permutation (x : A) (l : list A) :
  Permutation (x :: l) (insert lt key x l).
Proof.
  induction l as [|z l IH]; simpl; [reflexivity|].
  destruct (lt (key z) (key x)); [|reflexivity].
  rewrite perm_swap. now apply perm_skip.
Qed.

Lemma sort_Permutation (l : list A) : Permutation l (sort lt key l).
Proof.
  induction l as [|x l IH]; simpl; [reflexivity|].
  rewrite <- insert_Permutation. now apply perm_skip.
Qed.

Hypothesis lt_asym : forall a b, lt a b = true -> lt b a = false.
Hypothesis lt_cotrans :
  forall a b c, lt a c = true -> lt a b = true \/ lt b c = true.

(** [x] may stand before [y] in a sorted list. *)
Definition not_after (x y : A) : Prop := lt (key y) (key x) = false.

Lemma insert_sorted (x : A) (l : list A) :
  StronglySorted not_after l -> StronglySorted not_after (insert lt key x l).
Proof.
  induction 1 as [|z l Hs IH Hall]; simpl.
  - constructor; constructor.
  - destruct (lt (key z) (key x)) eqn:E.
    + constructor; [exact IH|].
      apply Forall_forall. intros y Hy. apply insert_In in Hy as [->|Hy].
      * now apply lt_asym.
      * revert y Hy. now apply Forall_forall.
    + constructor; [now constructor|].
      constructor; [exact E|].
      apply Forall_forall. intros y Hy.
      assert (Hzy : not_after z y) by (revert y Hy; now apply Forall_forall).
      unfold not_after in *.
      destruct (lt (key y) (key x)) eqn:Eyx; [|reflexivity].
      destruct (lt_cotrans _ (key z) _ Eyx); congruence.
Qed.

Lemma sort_sorted (l : list A) : StronglySorted not_after (sort lt key l).
Proof.
  induction l as [|x l IH]; simpl; [constructor | now apply insert_sorted].
Qed.

Lemma sorted_app_inv (l1 l2 : list A) (x y : A) :
  StronglySorted not_after (l1 ++ x :: l2) -> In y l2 -> not_after x y.
Proof.
  induction l1 as [|z l1 IH]; simpl; intros Hs Hy.
  - inversion Hs as [|? ? _ Hall]; subst.
    revert y Hy. now apply Forall_forall.
  - inversion Hs; subst. now apply IH.
Qed.

(** After an ascending sort no key decreases from left to right. *)
Lemma sort_order (l l1 l2 : list A) (x y : A) :
  sort lt key l = l1 ++ x :: l2 -> In y l2 -> lt (key y) (key x) = false.
Proof.
  intros E Hy. apply (sorted_app_inv l1 l2); [|exact Hy].
  rewrite <- E. apply sort_sorted.
Qed.

(** After a descending sort no key increases from left to right. *)
Lemma sort_reverse_order (l l1 l2 : list A) (x y : A) :
  sort_reverse lt key l = l1 ++ x :: l2 -> In y l2 ->
  lt (key x) (key y) = false.
Proof.
  unfold sort_reverse. intros E Hy.
  apply (f_equal (@rev A)) in E. rewrite rev_involutive in E.
  rewrite rev_app_distr in E. simpl in E.
  apply in_rev in Hy. apply in_split in Hy as [m1 [m2 Hm]].
  rewrite Hm, <- !app_assoc in E. simpl in E.
  apply (sort_order _ m1 (m2 ++ x :: rev l1) y x E).
  apply in_or_app. right. now left.
Qed.

(** [x] has the key [k], as far as [<] can tell. *)
Definition same_key (k : K) (x : A) : bool :=
  negb (lt (key x) k) && negb (lt k (key x)).

Lemma insert_stable (k : K) (x : A) (l : list A) :
  filter (same_key k) (insert lt key x l) = filter (same_key k) (x :: l).
Proof.
  induction l as [|y l IH]; [reflexivity|].
  simpl insert. destruct (lt (key y) (key x)) eqn:E; [|reflexivity].
  simpl filter in *. rewrite IH.
  destruct (same_key k x) eqn:Ex, (same_key k y) eqn:Ey; try reflexivity.
  exfalso. unfold same_key in Ex, Ey.
  apply andb_true_iff in Ex as [_ Ex], Ey as [Ey _].
  apply negb_true_iff in Ex, Ey.
  destruct (lt_cotrans _ k _ E); congruence.
Qed.

(** The sort is stable: the elements that share a key come out in the
    order they had. *)
Lemma sort_stable (k : K) (l : list A) :
  filter (same_key k) (sort lt key l) = filter (same_key k) l.
Proof.
  induction l as [|x l IH]; [reflexivity|].
  simpl sort. rewrite insert_stable. simpl. now rewrite IH.
Qed.

(** So is the descending sort. *)
Lemma sort_reverse_stable (k : K) (l : list A) :
  filter (same_key k) (sort_reverse lt key l) = filter (same_key k) l.
Proof.
  unfold sort_reverse.
  now rewrite filter_rev, sort_stable, filter_rev, rev_involutive.
Qed.

End SortFacts.

(* ================================================================= *)
(** ** Facts about dates *)

Lemma lex_lt_asym (a b : list Z) : lex_lt a b = true -> lex_lt b a = false.
Proof.
  revert b; induction a as [|x a IH]; intros [|y b]; simpl; try congruence.
  destruct (Z.ltb_spec x y), (Z.ltb_spec y x); try congruence; try lia.
  apply IH.
Qed.

Lemma lex_lt_cotrans (a b c : list Z) :
  lex_lt a c = true -> lex_lt a b = true \/ lex_lt b c = true.
Proof.
  revert b c; induction a as [|x a IH]; intros [|y b] [|z c]; simpl;
    try (intuition congruence).
  destruct (Z.ltb_spec x z), (Z.ltb_spec z x), (Z.ltb_spec x y),
    (Z.ltb_spec y x), (Z.ltb_spec y z), (Z.ltb_spec z y);
    try lia; try (intuition congruence).
  apply IH.
Qed.

Lemma datetime_lt_asym (a b : datetime) :
  datetime_lt a b = true -> datetime_lt b a = false.
Proof. apply lex_lt_asym. Qed.

Lemma datetime_lt_cotrans (a b c : datetime) :
  datetime_lt a c = true -> datetime_lt a b = true \/ datetime_lt b c = true.
Proof. apply lex_lt_cotrans. Qed.

Lemma days_in_month_bound (y m : Z) : 28 <= Strptime.days_in_month y m <= 31.
Proof.
  unfold Strptime.days_in_month.
  repeat match goal with |- context [if ?b then _ else _] => destruct b end; lia.
Qed.

(** What [strptime] returns: a valid date at midnight. *)
Lemma strptime_Ymd_inv (s : string) (d : datetime) :
  Strptime.strptime_Ymd s = Some d ->
  Strptime.valid_date (year d) (month d) (day d) = true /\
  hour d = 0 /\ minute d = 0 /\ second d = 0 /\ microsecond d = 0.
Proof.
  unfold Strptime.strptime_Ymd.
  destruct (Strptime.match_Ymd s) as [[[y m] dd]|]; [|discriminate].
  destruct (Strptime.valid_date y m dd) eqn:E; [|discriminate].
  intros [= <-]. simpl. auto.
Qed.

(** Every parsed date is before [datetime.max]. *)
Lemma strptime_lt_max (s : string) (d : datetime) :
  Strptime.strptime_Ymd s = Some d -> datetime_lt d datetime_max = true.
Proof.
  intros H. apply strptime_Ymd_inv in H as (Hv & Hh & _).
  unfold Strptime.valid_date in Hv.
  pose proof (days_in_month_bound (year d) (month d)).
  repeat (apply andb_true_iff in Hv as [Hv ?]).
  unfold datetime_lt, dt_fields, datetime_max, lex_lt. simpl.
  rewrite Hh.
  repeat match goal with
         | |- context [?a <? ?b] => destruct (Z.ltb_spec a b); try reflexivity; try lia
         end.
Qed.

(** A parsed date other than [datetime.min] is after it. *)
Lemma strptime_gt_min (s : string) (d : datetime) :
  Strptime.strptime_Ymd s = Some d -> d <> datetime_min ->
  datetime_lt datetime_min d = true.
Proof.
  intros H Hne. apply strptime_Ymd_inv in H as (Hv & Hh & Hm & Hs & Hu).
  unfold Strptime.valid_date in Hv.
  repeat (apply andb_true_iff in Hv as [Hv ?]).
  destruct d as [y m dd h mi se us]; simpl in *; subst.
  unfold datetime_lt, dt_fields, datetime_min, lex_lt. simpl.
  repeat match goal with
         | |- context [?a <? ?b] => destruct (Z.ltb_spec a b); try reflexivity; try lia
         end.
  exfalso. apply Hne. unfold datetime_min. f_equal; lia.
Qed.

(* ================================================================= *)
(** ** The eligibility matcher: what it selects *)

Section EligibilityFacts.

Context {F : PyFloat}.

(** A listing meets the criteria: every criterion that is supplied (not
    empty, respectively true) holds of it. *)
Definition meets_criteria (country level field : string)
    (is_international : bool) (r : Scholarship) : Prop :=
  (country = "" \/ col_country r = country) /\
  (level = "" \/ col_level r = Some level) /\
  (field = "" \/ col_field r = Some field) /\
  (is_international = false \/ col_is_international_only r = 1).

Lemma text_eq_iff (col : option string) (p : string) :
  text_eq col p = true <-> col = Some p.
Proof.
  destruct col as [s|]; simpl.
  - rewrite String.eqb_eq. split; congruence.
  - split; discriminate.
Qed.

Lemma In_select_where (query : list clause) (db : Table) (r : Scholarship) :
  In r (select_where query db) <->
  In r db /\ forallb (clause_holds r) query = true.
Proof. apply filter_In. Qed.

Lemma build_query_holds (country level field : string)
    (is_international : bool) (r : Scholarship) :
  forallb (clause_holds r) (build_query country level field is_international) = true
  <-> meets_criteria country level field is_international r.
Proof.
  unfold build_query, meets_criteria.
  destruct country as [|c0 country], level as [|l0 level],
    field as [|f0 field], is_international;
    simpl; rewrite ?andb_true_iff, ?text_eq_iff, ?String.eqb_eq, ?Z.eqb_eq;
    intuition; discriminate.
Qed.

(** The gate of the form handler drops a row exactly when a GPA was
    given, the row has a [min_gpa], the latter reads as a number and the
    former is below it. *)
Lemma gate_excludes_iff (gpa : option float) (r : Scholarship) :
  gate_excludes gpa r = true <->
  exists g m, gpa = Some g /\ col_min_gpa r <> SqlNull /\
              py_float_sql (col_min_gpa r) = Ok m /\ float_lt g m = true.
Proof.
  unfold gate_excludes. split.
  - destruct gpa as [g|]; [|discriminate].
    destruct (col_min_gpa r) eqn:Em; simpl; try discriminate;
      match goal with
      | |- context [match ?c with Ok _ => _ | Raise _ => _ end] =>
          destruct c as [m|e] eqn:Ep; [|discriminate]
      | _ => idtac
      end;
      intros Hlt; eexists _, _; repeat split; try eassumption; try reflexivity;
      discriminate.
  - intros (g & m & -> & Hnn & Hp & Hlt).
    assert (Em : sql_is_not_None (col_min_gpa r) = true)
      by (destruct (col_min_gpa r); [congruence|reflexivity..]).
    rewrite Em, Hp. exact Hlt.
Qed.

(** The gate of the JSON handler, likewise, on the JSON value sent. *)
Lemma api_gate_excludes_iff (gpa : json) (r : Scholarship) :
  api_gate_excludes gpa r = true <->
  exists g m, gpa <> JNull /\ col_min_gpa r <> SqlNull /\
              py_float_json gpa = Ok g /\
              py_float_sql (col_min_gpa r) = Ok m /\ float_lt g m = true.
Proof.
  unfold api_gate_excludes. split.
  - destruct (json_is_not_None gpa) eqn:Eg; [|discriminate].
    destruct (sql_is_not_None (col_min_gpa r)) eqn:Em; [|discriminate].
    simpl. unfold bind.
    destruct (py_float_json gpa) as [g|]; [|discriminate].
    destruct (py_float_sql (col_min_gpa r)) as [m|]; [|discriminate].
    intros Hlt. exists g, m. repeat split; try assumption.
    + intros ->. discriminate.
    + intros E. rewrite E in Em. discriminate.
  - intros (g & m & Hg & Hm & Pg & Pm & Hlt).
    assert (Eg : json_is_not_None gpa = true)
      by (destruct gpa; [congruence|reflexivity..]).
    assert (Em : sql_is_not_None (col_min_gpa r) = true)
      by (destruct (col_min_gpa r); [congruence|reflexivity..]).
    cbv zeta. rewrite Eg, Em, Pg, Pm. exact Hlt.
Qed.

(** A GPA, or a [min_gpa], that is missing or does not read as a number
    never closes a gate. *)
Lemma gates_permissive (r : Scholarship) :
  (gate_excludes None r = false) /\
  (forall gpa, col_min_gpa r = SqlNull -> gate_excludes gpa r = false) /\
  (forall gpa e, py_float_sql (col_min_gpa r) = Raise e ->
                 gate_excludes gpa r = false) /\
  (api_gate_excludes JNull r = false) /\
  (forall gpa, col_min_gpa r = SqlNull -> api_gate_excludes gpa r = false) /\
  (forall gpa e, py_float_json gpa = Raise e -> api_gate_excludes gpa r = false) /\
  (forall gpa e, py_float_sql (col_min_gpa r) = Raise e ->
                 api_gate_excludes gpa r = false).
Proof.
  repeat split.
  - intros gpa E. unfold gate_excludes. rewrite E. now destruct gpa.
  - intros gpa e E. unfold gate_excludes. rewrite E.
    destruct gpa; [|reflexivity]. now destruct (sql_is_not_None _).
  - intros gpa E. unfold api_gate_excludes. rewrite E. simpl.
    now rewrite andb_false_r.
  - intros gpa e E. unfold api_gate_excludes. rewrite E. simpl.
    now destruct (_ && _).
  - intros gpa e E. unfold api_gate_excludes. rewrite E. unfold bind.
    destruct (_ && _); [|reflexivity]. now destruct (py_float_json gpa).
Qed.

Lemma eligibility_results_In (country level field : string)
    (gpa : option float) (is_international : bool) (db : Table)
    (r : Scholarship) :
  In r (eligibility_results country level field gpa is_international db) <->
  In r db /\ meets_criteria country level field is_international r /\
  gate_excludes gpa r = false.
Proof.
  unfold eligibility_results.
  rewrite filter_In, In_select_where, build_query_holds, negb_true_iff.
  intuition.
Qed.

Lemma api_eligibility_rows_In (country level field : string)
    (gpa is_international : json) (db : Table) (r : Scholarship) :
  In r (api_eligibility_rows country level field gpa is_international db) <->
  In r db /\
  meets_criteria country level field (json_truthy is_international) r /\
  api_gate_excludes gpa r = false.
Proof.
  unfold api_eligibility_rows.
  rewrite filter_In, In_select_where, build_query_holds, negb_true_iff.
  intuition.
Qed.

Lemma filter_all {A : Type} (p : A -> bool) (l : list A) :
  (forall x, In x l -> p x = true) -> filter p l = l.
Proof.
  induction l as [|x l IH]; simpl; intros H; [reflexivity|].
  rewrite (H x (or_introl eq_refl)), IH; [reflexivity|].
  intros y Hy. apply H. now right.
Qed.

Lemma In_nil_eq {A : Type} (l : list A) : (forall x, ~ In x l) -> l = [].
Proof.
  destruct l as [|x l]; [reflexivity|]. intros H. destruct (H x). now left.
Qed.

End EligibilityFacts.

#[local] Arguments Str.strip : simpl never.

Section EligibilityClaims.

Context {F : PyFloat}.







(** C3.  The form handler does not survive a GPA that is no number: when
    the field [gpa], stripped, is not empty and [float] rejects it, the
    request ends in a [ValueError] instead of a result. *)
Theorem eligibility_form_raises_on_bad_gpa (form : Form) (db : Table) :
  Str.strip (get "gpa" "" form) <> "" ->
  float_of_str (Str.strip (get "gpa" "" form)) = None ->
  eligibility POST form db = Raise ValueError.
Proof.
  intros Hne Hbad. simpl. unfold eligibility_post.
  apply StrFacts.truthy_true_iff in Hne. rewrite Hne.
  unfold py_float_str. rewrite Hbad. reflexivity.
Qed.

(** The JSON handler, by contrast, answers whatever [gpa] holds, as long
    as the three text criteria are strings or missing. *)
Lemma api_eligibility_total_in_gpa (data : list (string * json)) (db : Table) :
  (forall k, In k ["country"; "level"; "field"] ->
             exists s, get k (JStr "") data = JStr s) ->
  exists rows, api_eligibility_select (JObj data) db = Ok rows.
Proof.
  intros H.
  destruct (H "country") as [c Hc]; [simpl; auto|].
  destruct (H "level") as [l Hl]; [simpl; auto|].
  destruct (H "field") as [f Hf]; [simpl; auto|].
  unfold api_eligibility_select. simpl. rewrite Hc, Hl, Hf. simpl.
  eexists. reflexivity.
Qed.

Lemma gates_agree (g : float) (r : Scholarship) :
  gate_excludes (Some g) r = api_gate_excludes (JFloat g) r.
Proof.
  unfold gate_excludes, api_gate_excludes. simpl.
  destruct (sql_is_not_None (col_min_gpa r)); [|reflexivity].
  now destruct (py_float_sql (col_min_gpa r)).
Qed.

Lemma gates_agree_absent (r : Scholarship) :
  gate_excludes None r = api_gate_excludes JNull r.
Proof. reflexivity. Qed.

(** Where the form's [gpa] is blank or a number, the two handlers select
    the same listings, in the same order, for the same criteria. *)
Lemma form_and_api_agree (country level field gpa_raw : string)
    (is_international : bool) (gpa : json) (db : Table) :
  let form :=
    [("country", country); ("level", level); ("field", field); ("gpa", gpa_raw)]
      ++ (if is_international then [("is_international", "on")] else []) in
  let body :=
    JObj [("country", JStr country); ("level", JStr level);
          ("field", JStr field); ("gpa", gpa);
          ("is_international", JBool is_international)] in
  (Str.strip gpa_raw = "" /\ gpa = JNull) \/
  (Str.strip gpa_raw <> "" /\
   exists g, float_of_str (Str.strip gpa_raw) = Some g /\ gpa = JFloat g) ->
  exists rows,
    eligibility POST form db = Ok rows /\
    api_eligibility_select body db = Ok rows.
Proof.
  intros form body H. subst form body.
  unfold eligibility, eligibility_post, api_eligibility_select, get.
  assert (Hrows : forall c l f i o j,
             (o = None /\ j = JNull \/ exists g, o = Some g /\ j = JFloat g) ->
             eligibility_results c l f o i db =
             api_eligibility_rows c l f j (JBool i) db).
  { intros c l f i o j Hoj.
    unfold api_eligibility_rows, eligibility_results. simpl.
    apply filter_ext. intros r. f_equal.
    destruct Hoj as [[-> ->]|[g [-> ->]]];
      [apply gates_agree_absent | apply gates_agree]. }
  destruct H as [[Hb ->]|[Hne [g [Hg ->]]]].
  - destruct is_international; simpl; rewrite Hb; simpl;
      eexists; (split; [reflexivity|]); f_equal; symmetry; apply Hrows; auto.
  - apply StrFacts.truthy_true_iff in Hne.
    destruct is_international; simpl; rewrite Hne; unfold py_float_str;
      rewrite Hg; simpl;
      eexists; (split; [reflexivity|]); f_equal; symmetry; apply Hrows; eauto.
Qed.

End EligibilityClaims.

(* ================================================================= *)
(** ** The browse page: filters and deadline order *)

Section BrowseFacts.

Context {F : PyFloat}.

Import StrFacts.

Definition make_item (r : Scholarship) : Item :=
  {| item_row := r; item_checklist := read_checklist (col_checklist r) |}.

Lemma scholarships_unfold (args : Form) (db : Table) :
  scholarships args db =
  sort_items (get "sort" "" args)
    (filter_items (Str.lower (Str.strip (get "q" "" args)))
                  (Str.lower (Str.strip (get "country" "" args)))
                  (map make_item db)).
Proof. reflexivity. Qed.

Lemma sort_items_In (sort_key : string) (items : list Item) (x : Item) :
  In x (sort_items sort_key items) <-> In x items.
Proof.
  unfold sort_items.
  destruct (String.eqb sort_key "deadline_asc"); [apply sort_In|].
  destruct (String.eqb sort_key "deadline_desc"); [apply sort_reverse_In|].
  reflexivity.
Qed.

Lemma filter_items_In (q country : string) (items : list Item) (x : Item) :
  In x (filter_items q country items) <->
  In x items /\
  (q = "" \/ is_substring q (Str.lower (col_name (item_row x)))) /\
  (country = "" \/ is_substring country (Str.lower (col_country (item_row x)))).
Proof.
  unfold filter_items.
  destruct q as [|a q], country as [|b country]; simpl Str.truthy; cbv iota;
    rewrite ?filter_In, ?contains_iff; intuition; discriminate.
Qed.

(** The rows shown are the stored rows that pass the two filters. *)
Lemma scholarships_rows (args : Form) (db : Table) (r : Scholarship) :
  In r (map item_row (scholarships args db)) <->
  In r db /\
  (Str.lower (Str.strip (get "q" "" args)) = "" \/
   is_substring (Str.lower (Str.strip (get "q" "" args)))
                (Str.lower (col_name r))) /\
  (Str.lower (Str.strip (get "country" "" args)) = "" \/
   is_substring (Str.lower (Str.strip (get "country" "" args)))
                (Str.lower (col_country r))).
Proof.
  rewrite scholarships_unfold, in_map_iff. split.
  - intros (x & <- & Hx).
    apply sort_items_In, filter_items_In in Hx as (Hx & Hq & Hc).
    apply in_map_iff in Hx as (r' & <- & Hr'). auto.
  - intros (Hr & Hq & Hc). exists (make_item r). split; [reflexivity|].
    apply sort_items_In, filter_items_In. split; [|auto].
    now apply in_map.
Qed.

(** C6, as amended.  The browse page keeps a listing exactly when the
    query, stripped of the blanks around it and put in lower case, is
    empty or occurs in the name put in lower case, and the same holds of
    the country filter against the country.  So a query that is the name
    of a listing, in any case, keeps that listing, and a query that is
    not empty once stripped and occurs in no name leaves no listing. *)
Theorem browse_filter_on_stripped_query (args : Form) (db : Table) :
  let q := Str.lower (Str.strip (get "q" "" args)) in
  let country := Str.lower (Str.strip (get "country" "" args)) in
  (forall r,
      In r (map item_row (scholarships args db)) <->
      In r db /\
      (q = "" \/ is_substring q (Str.lower (col_name r))) /\
      (country = "" \/ is_substring country (Str.lower (col_country r)))) /\
  (forall r,
      In r db -> country = "" ->
      Str.lower (get "q" "" args) = Str.lower (col_name r) ->
      In r (map item_row (scholarships args db))) /\
  (q <> "" ->
   (forall r, In r db -> ~ is_substring q (Str.lower (col_name r))) ->
   scholarships args db = []).
Proof.
  intros q country. split; [|split].
  - intros r. apply scholarships_rows.
  - intros r Hr Hc Hq. apply scholarships_rows. split; [exact Hr|].
    split; [|now left]. right.
    rewrite lower_strip, Hq. apply strip_is_substring.
  - intros Hq Hno. apply In_nil_eq. intros x Hx.
    assert (Hr : In (item_row x) (map item_row (scholarships args db)))
      by now apply in_map.
    apply scholarships_rows in Hr as (Hr & [Hq'|Hq'] & _).
    + now apply Hq.
    + now apply (Hno (item_row x)).
Qed.

(** Under [sort=deadline_asc] a listing whose deadline does not parse is
    followed only by such listings: it stands after every listing with a
    valid date. *)
Lemma deadline_asc_unparsable_last (args : Form) (db : Table)
    (l1 l2 : list Item) (x y : Item) :
  get "sort" "" args = "deadline_asc" ->
  scholarships args db = l1 ++ x :: l2 ->
  parse_date (col_deadline (item_row x)) = None ->
  In y l2 ->
  parse_date (col_deadline (item_row y)) = None.
Proof.
  rewrite scholarships_unfold. intros -> E Hx Hy.
  unfold sort_items in E. simpl in E.
  pose proof (sort_order datetime_lt key_asc datetime_lt_asym
                datetime_lt_cotrans _ l1 l2 x y E Hy) as H.
  unfold key_asc in H. rewrite Hx in H. simpl in H.
  destruct (parse_date (col_deadline (item_row y))) as [d|] eqn:Ed;
    [|reflexivity].
  simpl in H. unfold parse_date in Ed.
  destruct (col_deadline (item_row y)) as [text|]; [|discriminate].
  apply strptime_lt_max in Ed. congruence.
Qed.

(** Under [sort=deadline_desc] the same holds as long as no stored
    deadline is the first of January of the year 1, the date that
    [datetime.min] stands for. *)
Lemma deadline_desc_unparsable_last (args : Form) (db : Table)
    (l1 l2 : list Item) (x y : Item) :
  get "sort" "" args = "deadline_desc" ->
  (forall r, In r db -> parse_date (col_deadline r) <> Some datetime_min) ->
  scholarships args db = l1 ++ x :: l2 ->
  parse_date (col_deadline (item_row x)) = None ->
  In y l2 ->
  parse_date (col_deadline (item_row y)) = None.
Proof.
  intros Hs Hdb E Hx Hy.
  assert (Hyr : In (item_row y) db).
  { apply (scholarships_rows args db). apply in_map. rewrite E.
    apply in_or_app. right. now right. }
  rewrite scholarships_unfold, Hs in E.
  unfold sort_items in E. simpl in E.
  pose proof (sort_reverse_order datetime_lt key_desc datetime_lt_asym
                datetime_lt_cotrans _ l1 l2 x y E Hy) as H.
  unfold key_desc in H. rewrite Hx in H. simpl in H.
  specialize (Hdb _ Hyr).
  destruct (parse_date (col_deadline (item_row y))) as [d|] eqn:Ed;
    [|reflexivity].
  simpl in H. unfold parse_date in Ed.
  destruct (col_deadline (item_row y)) as [text|]; [|discriminate].
  apply strptime_gt_min in Ed; [congruence|].
  intros ->. now apply Hdb.
Qed.

End BrowseFacts.

(* ================================================================= *)
(** ** The checklist round trip *)

Section ChecklistFacts.

Context {F : PyFloat}.

Import StrFacts.

(** The last item, when there is one, is not empty. *)
Fixpoint last_item_not_empty (items : list string) : bool :=
  match items with
  | [] => true
  | [x] => Str.truthy x
  | _ :: rest => last_item_not_empty rest
  end.

(** A checklist that the text column can hold: no item contains a line
    boundary and the last item is not empty. *)
Definition storable (items : list string) : Prop :=
  (forall x, In x items -> no_linebreak x = true) /\
  last_item_not_empty items = true.

Definition checklist_of (s : SeedEntry) : list string :=
  match seed_checklist s with
  | Some l => l
  | None => []
  end.

Lemma read_checklist_splitlines (text : string) :
  read_checklist (Some text) = Str.splitlines text.
Proof. now destruct text. Qed.

(** The lines of a joined checklist whose items contain no line boundary:
    the items, short of the last one when it is empty. *)
Lemma splitlines_join_lines (items : list string) :
  (forall x, In x items -> no_linebreak x = true) ->
  Str.splitlines (Str.join Str.nl items) =
  if last_item_not_empty items then items else removelast items.
Proof.
  induction items as [|x [|y rest] IH]; intros Hnl.
  - reflexivity.
  - simpl. destruct x as [|c x]; [reflexivity|].
    apply splitlines_one_line; [apply Hnl; now left | discriminate].
  - change (Str.join Str.nl (x :: y :: rest))
      with (x ++ Str.nl ++ Str.join Str.nl (y :: rest))%string.
    rewrite splitlines_line_nl by (apply Hnl; now left).
    rewrite IH by (intros z Hz; apply Hnl; now right).
    change (last_item_not_empty (x :: y :: rest))
      with (last_item_not_empty (y :: rest)).
    now destruct (last_item_not_empty (y :: rest)).
Qed.

Lemma splitlines_join (items : list string) :
  storable items -> Str.splitlines (Str.join Str.nl items) = items.
Proof.
  intros [Hnl Hlast]. now rewrite splitlines_join_lines, Hlast.
Qed.

Lemma removelast_neq {A : Type} (l : list A) : l <> [] -> removelast l <> l.
Proof.
  intros Hne E. destruct l as [|d l']; [congruence|].
  pose proof (app_removelast_last d Hne) as H. rewrite E in H.
  apply (f_equal (@List.length A)) in H. rewrite List.length_app in H.
  simpl in H. lia.
Qed.

(** Only a storable checklist comes back as it was. *)
Lemma round_trip_storable (items : list string) :
  read_checklist (Some (Str.join Str.nl items)) = items -> storable items.
Proof.
  rewrite read_checklist_splitlines. intros E.
  assert (Hnl : forall x, In x items -> no_linebreak x = true).
  { intros x Hx. rewrite <- E in Hx. now apply splitlines_no_linebreak in Hx. }
  split; [exact Hnl|].
  rewrite (splitlines_join_lines items Hnl) in E.
  destruct (last_item_not_empty items) eqn:El; [reflexivity|].
  exfalso. apply (removelast_neq items); [|exact E].
  intros ->. discriminate.
Qed.

Lemma insert_seeds_checklists (data : list SeedEntry) (next_id : Z) (db : Table) :
  map col_checklist (insert_seeds next_id data db) =
  map col_checklist db ++
  map (fun s => Some (Str.join Str.nl (checklist_of s))) data.
Proof.
  revert next_id db; induction data as [|s data IH]; intros next_id db; simpl.
  - now rewrite app_nil_r.
  - rewrite IH, map_app, <- app_assoc. reflexivity.
Qed.

(** C9, as amended.  A checklist whose items contain no line boundary and
    whose last item is not empty comes back from the store as it went in,
    and no other checklist does: joined with newlines by the seed loader
    and split into lines when read, it is the same sequence, for every
    seeded listing that [api_scholarships] returns; text that is empty or
    missing reads as the empty sequence. *)
Theorem checklist_round_trip :
  (forall items,
      read_checklist (Some (Str.join Str.nl items)) = items <-> storable items) /\
  (forall data next_id,
      (forall s, In s data -> storable (checklist_of s)) ->
      map as_checklist
        (api_scholarships (seed_scholarships_from_json (Some data) next_id []))
      = map checklist_of data) /\
  read_checklist (Some "") = [] /\
  read_checklist None = [].
Proof.
  split; [|split; [|split; reflexivity]].
  - intros items. split; [apply round_trip_storable|].
    intros H. rewrite read_checklist_splitlines. now apply splitlines_join.
  - intros data next_id H. unfold seed_scholarships_from_json, api_scholarships.
    rewrite map_map. simpl.
    rewrite <- (map_map col_checklist read_checklist), insert_seeds_checklists.
    simpl. rewrite map_map. apply map_ext_in. intros s Hs.
    rewrite read_checklist_splitlines. apply splitlines_join. now apply H.
Qed.

End ChecklistFacts.

(* ================================================================= *)
(** ** The admin edit *)

Section EditFacts.

Context {F : PyFloat}.

Lemma find_update_by_id (sid : Z) (new : Scholarship -> Scholarship)
    (db : Table) (r : Scholarship) :
  (forall x, col_id (new x) = col_id x) ->
  find_by_id sid db = Some r ->
  find_by_id sid (update_by_id sid new db) = Some (new r).
Proof.
  intros Hid. unfold find_by_id, update_by_id.
  induction db as [|x db IH]; simpl; [discriminate|].
  destruct (col_id x =? sid) eqn:E.
  - intros [= ->]. now rewrite Hid, E.
  - rewrite E. exact IH.
Qed.

Lemma update_by_id_others (sid : Z) (new : Scholarship -> Scholarship)
    (db : Table) (x : Scholarship) :
  (forall y, col_id (new y) = col_id y) ->
  col_id x <> sid ->
  (In x (update_by_id sid new db) <-> In x db).
Proof.
  intros Hid Hx. unfold update_by_id. rewrite in_map_iff. split.
  - intros (y & Hy & Hin). destruct (col_id y =? sid) eqn:E.
    + apply Z.eqb_eq in E. subst x. rewrite Hid in Hx. contradiction.
    + now subst.
  - intros Hin. exists x. split; [|exact Hin].
    apply Z.eqb_neq in Hx. now rewrite Hx.
Qed.

(** The values the handler reads from a form that has the three required
    fields and a [min_gpa] that is blank or a number. *)
Definition fields_of (form : Form) (name country link : string)
    (min_gpa : option float) : Fields :=
  {| f_name := Str.strip name;
     f_country := Str.strip country;
     f_university := Str.strip (get "university" "" form);
     f_level := Str.strip (get "level" "" form);
     f_field := Str.strip (get "field" "" form);
     f_tags := Str.strip (get "tags" "" form);
     f_deadline :=
       (let d := Str.strip (get "deadline" "" form) in
        if Str.truthy d then Some d else None);
     f_link := Str.strip link;
     f_checklist := Str.strip (get "checklist" "" form);
     f_min_gpa := min_gpa;
     f_is_international_only :=
       match lookup "is_international_only" form with
       | Some v => if String.eqb v "on" then 1 else 0
       | None => 0
       end |}.

(** The form gives a [min_gpa]: none when the field is blank, the number
    when [float] reads it. *)
Definition submitted_min_gpa (form : Form) (min_gpa : option float) : Prop :=
  (Str.strip (get "min_gpa" "" form) = "" /\ min_gpa = None) \/
  (Str.strip (get "min_gpa" "" form) <> "" /\
   exists g, float_of_str (Str.strip (get "min_gpa" "" form)) = Some g /\
             min_gpa = Some g).

Lemma extract_fields_ok (form : Form) (name country link : string)
    (min_gpa : option float) :
  lookup "name" form = Some name ->
  lookup "country" form = Some country ->
  lookup "link" form = Some link ->
  submitted_min_gpa form min_gpa ->
  extract_fields form = Ok (fields_of form name country link min_gpa).
Proof.
  intros Hn Hc Hl Hg. unfold extract_fields, getitem.
  rewrite Hn, Hc, Hl. simpl.
  destruct Hg as [[Hb ->]|[Hne [g [Hg ->]]]].
  - rewrite Hb. reflexivity.
  - apply StrFacts.truthy_true_iff in Hne. rewrite Hne.
    unfold py_float_str. rewrite Hg. reflexivity.
Qed.

(** Whatever the request, a store that [edit_scholarship] returns holds
    the listing with the file names it had, unless a file came with the
    form. *)
Lemma edit_frame_without_upload (is_admin : bool) (sid : Z) (m : method)
    (form : Form) (files : list (string * FileStorage)) (st st' : Store)
    (r : Scholarship) :
  find_by_id sid (scholarships_table st) = Some r ->
  edit_scholarship is_admin sid m form files st = Ok st' ->
  exists r',
    find_by_id sid (scholarships_table st') = Some r' /\
    (uploaded (lookup "image_file" files) = None ->
     col_image_filename r' = col_image_filename r) /\
    (uploaded (lookup "brochure_file" files) = None ->
     col_brochure_filename r' = col_brochure_filename r).
Proof.
  intros Hr. unfold edit_scholarship.
  destruct is_admin; simpl; [|intros [= <-]; now exists r].
  rewrite Hr. destruct m; [intros [= <-]; now exists r|].
  destruct (extract_fields form) as [fl|e]; simpl; [|discriminate].
  destruct (uploaded (lookup "image_file" files)) as [img|];
    destruct (uploaded (lookup "brochure_file" files)) as [doc|];
    intros [= <-]; eexists;
    (split; [apply find_update_by_id; [reflexivity | exact Hr]|]);
    split; intros H; first [discriminate H | reflexivity].
Qed.

(** C10.  An edit that comes with no image file leaves the listing's
    [image_filename] as it was, and one that comes with no brochure file
    leaves [brochure_filename] as it was; every other column except the
    identifier takes the value the handler read from the form, and the
    other listings stay as they are. *)
Theorem edit_keeps_file_names_without_upload (sid : Z) (form : Form)
    (files : list (string * FileStorage)) (st : Store) (r : Scholarship)
    (fl : Fields) :
  find_by_id sid (scholarships_table st) = Some r ->
  extract_fields form = Ok fl ->
  exists st' r',
    edit_scholarship true sid POST form files st = Ok st' /\
    find_by_id sid (scholarships_table st') = Some r' /\
    (uploaded (lookup "image_file" files) = None ->
     col_image_filename r' = col_image_filename r) /\
    (uploaded (lookup "brochure_file" files) = None ->
     col_brochure_filename r' = col_brochure_filename r) /\
    col_id r' = col_id r /\
    col_name r' = f_name fl /\
    col_country r' = f_country fl /\
    col_university r' = Some (f_university fl) /\
    col_level r' = Some (f_level fl) /\
    col_field r' = Some (f_field fl) /\
    col_tags r' = Some (f_tags fl) /\
    col_deadline r' = f_deadline fl /\
    col_link r' = f_link fl /\
    col_checklist r' = Some (f_checklist fl) /\
    col_min_gpa r' = sql_of_float (f_min_gpa fl) /\
    col_is_international_only r' = f_is_international_only fl /\
    (forall x, col_id x <> sid ->
               (In x (scholarships_table st') <-> In x (scholarships_table st))).
Proof.
  intros Hr Hfl.
  unfold edit_scholarship. simpl negb. cbv iota. rewrite Hr, Hfl.
  unfold bind.
  destruct (uploaded (lookup "image_file" files)) as [img|];
    destruct (uploaded (lookup "brochure_file" files)) as [doc|];
    (eexists; eexists; split; [reflexivity|]);
    (split; [apply find_update_by_id; [reflexivity | exact Hr]|]);
    cbn [scholarships_table];
    repeat (split; [first [reflexivity | discriminate | (intros _; reflexivity)]|]);
    intros x Hx; now apply update_by_id_others.
Qed.

End EditFacts.

(* ================================================================= *)
(** ** The handlers on concrete listings *)

Module Examples.

Import DecimalFloat.

Definition fulbright : Scholarship :=
  {| col_id := 1;
     col_name := "Fulbright Program";
     col_country := "USA";
     col_university := Some "";
     col_level := Some "Masters";
     col_field := Some "Engineering";
     col_tags := Some "";
     col_deadline := Some "2025-10-01";
     col_link := "https://example.org/fulbright";
     col_checklist := Some (Str.join Str.nl ["Transcript"; "Essay"]);
     col_min_gpa := SqlReal (Fin (7 # 2));
     col_is_international_only := 1;
     col_image_filename := Some "img_Fulbright_Program_logo.png";
     col_brochure_filename := None |}.

Definition chevening : Scholarship :=
  {| col_id := 2;
     col_name := "Chevening Scholarship";
     col_country := "UK";
     col_university := None;
     col_level := None;
     col_field := None;
     col_tags := None;
     col_deadline := None;
     col_link := "https://example.org/chevening";
     col_checklist := Some "";
     col_min_gpa := SqlNull;
     col_is_international_only := 0;
     col_image_filename := None;
     col_brochure_filename := None |}.

(** A listing whose deadline is the first day [strptime] accepts. *)
Definition year_one : Scholarship :=
  {| col_id := 3;
     col_name := "Founders Grant";
     col_country := "Italy";
     col_university := None;
     col_level := None;
     col_field := None;
     col_tags := None;
     col_deadline := Some "0001-01-01";
     col_link := "https://example.org/founders";
     col_checklist := None;
     col_min_gpa := SqlNull;
     col_is_international_only := 0;
     col_image_filename := None;
     col_brochure_filename := None |}.

Definition db : Table := [fulbright; chevening].

(** *** The GPA gate on the cases the specification lists *)

Example gate_three_below_three_and_a_half :
  eligibility POST [("gpa", "3.0")] db = Ok [chevening] /\
  api_eligibility_select (JObj [("gpa", JFloat (Fin 3))]) db = Ok [chevening].
Proof. split; reflexivity. Qed.

Example gate_without_min_gpa :
  eligibility POST [("gpa", "3.0")] [chevening] = Ok [chevening] /\
  api_eligibility_select (JObj [("gpa", JFloat (Fin 3))]) [chevening]
  = Ok [chevening].
Proof. split; reflexivity. Qed.

Example gate_without_caller_gpa :
  eligibility POST [] [fulbright] = Ok [fulbright] /\
  api_eligibility_select (JObj []) [fulbright] = Ok [fulbright].
Proof. split; reflexivity. Qed.

Example gate_at_the_threshold :
  eligibility POST [("gpa", " 3.5 ")] db = Ok db.
Proof. reflexivity. Qed.

(** C1.  The form handler loses the gate's permissive rule when the
    caller's GPA is no number: with [gpa=abc] the request raises
    [ValueError] where it reads the field, so no listing passes, neither
    the one with a [min_gpa] nor the one without; the gate of the JSON
    handler lets every listing through on the same value. *)
Theorem form_gate_not_permissive_on_bad_gpa :
  eligibility POST [("gpa", "abc")] db = Raise ValueError /\
  (forall rows, eligibility POST [("gpa", "abc")] db <> Ok rows) /\
  (forall r, api_gate_excludes (JStr "abc") r = false) /\
  api_eligibility_select (JObj [("gpa", JStr "abc")]) db = Ok db.
Proof.
  split; [reflexivity|]. split; [intros rows; discriminate|].
  split; [|reflexivity].
  intros r. unfold api_gate_excludes. simpl.
  now destruct (sql_is_not_None (col_min_gpa r)).
Qed.

(** C2.  The two handlers do not select the same listings for the same
    input: for the GPA [abc] and no other criterion the form flow raises
    [ValueError] and the JSON endpoint answers with every listing. *)
Theorem form_and_api_differ_on_bad_gpa :
  eligibility POST
    [("country", ""); ("level", ""); ("field", ""); ("gpa", "abc")] db
  = Raise ValueError /\
  api_eligibility
    (JObj [("country", JStr ""); ("level", JStr ""); ("field", JStr "");
           ("gpa", JStr "abc"); ("is_international", JBool false)]) db
  = Ok (map api_listing db).
Proof. split; reflexivity. Qed.

(** C3 on an input: the GPA [abc]. *)
Lemma eligibility_form_raises_on_abc :
  Str.strip (get "gpa" "" [("gpa", "abc")]) <> "" /\
  float_of_str (Str.strip (get "gpa" "" [("gpa", "abc")])) = None /\
  eligibility POST [("gpa", "abc")] db = Raise ValueError.
Proof.
  split; [vm_compute; discriminate|]. split; [reflexivity|].
  apply (eligibility_form_raises_on_bad_gpa [("gpa", "abc")] db);
    [vm_compute; discriminate | reflexivity].
Defined.



(** Equality, not containment and not equality up to case. *)
Example country_not_substring_nor_caseless :
  eligibility_results "US" "" "" None false db = [] /\
  eligibility_results "usa" "" "" None false db = [] /\
  api_eligibility_rows "US" "" "" JNull (JBool false) db = [] /\
  api_eligibility_rows "usa" "" "" JNull (JBool false) db = [] /\
  eligibility_results "USA" "" "" None false db = [fulbright].
Proof. repeat split. Qed.


Example flag_clear_keeps_international_only :
  eligibility POST [] db = Ok db /\
  eligibility POST [("is_international", "on")] db = Ok [fulbright] /\
  api_eligibility_select (JObj [("is_international", JBool false)]) db = Ok db /\
  api_eligibility_select (JObj [("is_international", JBool true)]) db
  = Ok [fulbright].
Proof. repeat split. Qed.

(** *** The browse page *)

(** C6, the claim as it stands, fails on a query with a blank at its end:
    [ful ] is not empty and does not occur in [fulbright program], yet
    the listing is kept, because the handler strips the query first. *)
Lemma browse_keeps_listing_for_padded_query :
  get "q" "" [("q", "ful ")] <> "" /\
  ~ StrFacts.is_substring (Str.lower (get "q" "" [("q", "ful ")]))
      (Str.lower (col_name fulbright)) /\
  In fulbright (map item_row (scholarships [("q", "ful ")] db)).
Proof.
  split; [vm_compute; discriminate|]. split.
  - intros H. apply StrFacts.contains_iff in H. vm_compute in H. discriminate.
  - left. reflexivity.
Qed.

(** C6 as amended, on an input: the query [xyz] occurs in no name. *)
Lemma browse_query_in_no_name :
  Str.lower (Str.strip (get "q" "" [("q", " XYZ ")])) <> "" /\
  (forall r, In r db ->
     ~ StrFacts.is_substring (Str.lower (Str.strip (get "q" "" [("q", " XYZ ")])))
         (Str.lower (col_name r))) /\
  scholarships [("q", " XYZ ")] db = [].
Proof.
  assert (Hne : Str.lower (Str.strip (get "q" "" [("q", " XYZ ")])) <> "")
    by (vm_compute; discriminate).
  assert (Hno : forall r, In r db ->
     ~ StrFacts.is_substring (Str.lower (Str.strip (get "q" "" [("q", " XYZ ")])))
         (Str.lower (col_name r))).
  { intros r Hr H. apply StrFacts.contains_iff in H.
    destruct Hr as [<-|[<-|[]]]; vm_compute in H; discriminate. }
  split; [exact Hne|]. split; [exact Hno|].
  exact (proj2 (proj2 (browse_filter_on_stripped_query [("q", " XYZ ")] db)) Hne Hno).
Defined.

Example browse_query_is_name_in_capitals :
  map item_row (scholarships [("q", "FULBRIGHT PROGRAM")] db) = [fulbright].
Proof. reflexivity. Qed.

(** C5.  Under [sort=deadline_desc] a listing without a deadline is not
    always placed after the listings with a valid date: its key,
    [datetime.min], is the date that the valid deadline [0001-01-01] parses
    to, the sort keeps the stored order of equal keys, and so the listing
    without a deadline stays in front.  Under [sort=deadline_asc] the same
    two listings come out with the dated one first. *)
Theorem deadline_desc_ties_with_year_one :
  parse_date (col_deadline chevening) = None /\
  parse_date (col_deadline year_one) = Some datetime_min /\
  map item_row (scholarships [("sort", "deadline_desc")] [chevening; year_one])
  = [chevening; year_one] /\
  map item_row (scholarships [("sort", "deadline_asc")] [chevening; year_one])
  = [year_one; chevening].
Proof. repeat split. Qed.

Example deadline_orders :
  map item_row (scholarships [("sort", "deadline_desc")] [chevening; fulbright])
  = [fulbright; chevening] /\
  map item_row (scholarships [("sort", "deadline_asc")] [chevening; fulbright])
  = [fulbright; chevening] /\
  map item_row (scholarships [] [chevening; fulbright]) = [chevening; fulbright].
Proof. repeat split. Qed.

(** *** The checklist *)

(** C9, the claim as it stands, fails on a checklist whose last item is
    empty and on one with a line break inside an item: neither comes back
    as it was stored. *)
Lemma checklist_not_every_sequence :
  read_checklist (Some (Str.join Str.nl ["Transcript"; ""])) = ["Transcript"] /\
  read_checklist (Some (Str.join Str.nl ["Transcript"; ""])) <> ["Transcript"; ""] /\
  read_checklist (Some (Str.join Str.nl [("Essay" ++ Str.nl ++ "two pages")%string]))
  = ["Essay"; "two pages"] /\
  read_checklist (Some (Str.join Str.nl [("Essay" ++ Str.nl ++ "two pages")%string]))
  <> [("Essay" ++ Str.nl ++ "two pages")%string].
Proof. repeat split; vm_compute; discriminate. Qed.

(** C9 as amended, on the checklist of the specification. *)
Lemma checklist_of_three_items :
  storable ["Transcript"; "Essay"; "Recommendation letter"] /\
  read_checklist
    (Some (Str.join Str.nl ["Transcript"; "Essay"; "Recommendation letter"]))
  = ["Transcript"; "Essay"; "Recommendation letter"].
Proof.
  assert (H : storable ["Transcript"; "Essay"; "Recommendation letter"]).
  { split; [|reflexivity]. intros x [<-|[<-|[<-|[]]]]; reflexivity. }
  split; [exact H|].
  exact (proj2 (proj1 checklist_round_trip _) H).
Defined.

(** *** The admin edit *)

Definition edit_form : Form :=
  [("name", " Fulbright Foreign Student Program "); ("country", "USA");
   ("link", "https://example.org/fulbright"); ("min_gpa", "3.0");
   ("level", "Masters"); ("is_international_only", "on")].

Definition store : Store :=
  {| scholarships_table := db; upload_folder := [] |}.

(** What the handler reads from [edit_form]. *)
Definition edit_fields : Fields :=
  {| f_name := "Fulbright Foreign Student Program";
     f_country := "USA";
     f_university := "";
     f_level := "Masters";
     f_field := "";
     f_tags := "";
     f_deadline := None;
     f_link := "https://example.org/fulbright";
     f_checklist := "";
     f_min_gpa := Some (Fin (30 # 10));
     f_is_international_only := 1 |}.

(** C10 on an input: an edit of the first listing without files. *)
Lemma edit_without_files_keeps_image :
  find_by_id 1 (scholarships_table store) = Some fulbright /\
  extract_fields edit_form = Ok edit_fields /\
  exists st' r',
    edit_scholarship true 1 POST edit_form [] store = Ok st' /\
    find_by_id 1 (scholarships_table st') = Some r' /\
    col_image_filename r' = Some "img_Fulbright_Program_logo.png" /\
    col_brochure_filename r' = None /\
    col_name r' = "Fulbright Foreign Student Program".
Proof.
  split; [reflexivity|]. split; [reflexivity|].
  destruct (edit_keeps_file_names_without_upload 1 edit_form [] store fulbright
              edit_fields eq_refl eq_refl)
    as (st' & r' & He & Hf & Hi & Hb & _ & Hn & _).
  exists st', r'.
  split; [exact He|]. split; [exact Hf|].
  split; [exact (Hi eq_refl)|]. split; [exact (Hb eq_refl)|]. exact Hn.
Defined.

(** An edit that brings an image replaces the file name and stores the
    file; an edit with a [min_gpa] that is no number changes nothing. *)
Example edit_with_image :
  exists st',
    edit_scholarship true 1 POST edit_form
      [("image_file", {| filename := "new.png"; file_content := "..." |})] store
    = Ok st' /\
    option_map col_image_filename (find_by_id 1 (scholarships_table st'))
    = Some (Some "img_Fulbright_Foreign_Student_Program_new.png") /\
    upload_folder st'
    = [("img_Fulbright_Foreign_Student_Program_new.png", "...")].
Proof. eexists. repeat split. Qed.

Example edit_with_bad_min_gpa :
  edit_scholarship true 1 POST
    [("name", "x"); ("country", "y"); ("link", "z"); ("min_gpa", "high")] [] store
  = Raise ValueError.
Proof. reflexivity. Qed.

End Examples.


(* ================================================================= *)
(** * The rest of [app.py]: accounts, sessions and the admin pages *)

(* ================================================================= *)
(** ** Passwords *)

(** [generate_password_hash] and [check_password_hash] of Werkzeug.  The
    first draws a salt; the salt is an argument here. *)
Class PasswordHash : Type := {
  generate_password_hash : string -> string -> string;
  check_password_hash : string -> string -> bool
}.

(** What the handlers rely on: a password passes against its own hash. *)
Definition hash_accepts_own_password {P : PasswordHash} : Prop :=
  forall salt password,
    check_password_hash (generate_password_hash salt password) password = true.

(* ================================================================= *)
(** ** Users and sessions *)

(** A row of the table [users]. *)
Record User : Type := {
  user_id : Z;
  user_email : string;
  user_password_hash : string;
  user_is_admin : Z
}.

(** A value kept in the session. *)
Inductive sval : Type :=
| SInt (z : Z)
| SStr (s : string).

Definition sval_truthy (v : sval) : bool :=
  match v with
  | SInt z => negb (z =? 0)
  | SStr s => Str.truthy s
  end.

(** The session of the client: a dictionary. *)
Definition Session : Type := list (string * sval).

(** [session[k] = v] *)
Definition session_set (k : string) (v : sval) (session : Session) : Session :=
  (k, v) :: filter (fun kv => negb (String.eqb (fst kv) k)) session.

(** The three assignments every successful sign-in makes. *)
Definition sign_in (id : Z) (email : string) (is_admin : Z) (session : Session)
  : Session :=
  session_set "is_admin" (SInt is_admin)
    (session_set "user_email" (SStr email)
      (session_set "user_id" (SInt id) session)).

(** The dictionary [current_user] returns. *)
Record CurrentUser : Type := {
  cu_id : sval;
  cu_email : option sval;
  cu_is_admin : sval
}.

Definition current_user (session : Session) : option CurrentUser :=
  match lookup "user_id" session with
  | Some id =>
      Some {| cu_id := id;
              cu_email := lookup "user_email" session;
              cu_is_admin := get "is_admin" (SInt 0) session |}
  | None => None
  end.

(** The test of [login_required]: the wrapped view runs. *)
Definition login_passes (session : Session) : bool :=
  match current_user session with
  | Some _ => true
  | None => false
  end.

(** The test of [admin_required]: the wrapped view runs. *)
Definition admin_passes (session : Session) : bool :=
  match current_user session with
  | Some u => sval_truthy (cu_is_admin u)
  | None => false
  end.

(** What a view answers with. *)
Inductive Response : Type :=
| Render (template : string) (error : option string)
| Redirect (endpoint : string).

(** [SELECT * FROM users WHERE email=?] then [fetchone()] *)
Definition find_user (email : string) (users : list User) : option User :=
  find (fun u => String.eqb (user_email u) email) users.

(** [SELECT * FROM users WHERE email=? AND is_admin=1] then [fetchone()] *)
Definition find_admin (email : string) (users : list User) : option User :=
  find (fun u => String.eqb (user_email u) email && (user_is_admin u =? 1)) users.

(** [INSERT INTO users]: [None] is the [IntegrityError] of the column
    [email UNIQUE]. *)
Definition insert_user (u : User) (users : list User) : option (list User) :=
  if existsb (fun x => String.eqb (user_email x) (user_email u)) users
  then None
  else Some (users ++ [u]).

Section Accounts.

Context {P : PasswordHash}.

(** [signup]: [salt] is the salt drawn for the hash, [new_id] the
    identifier the store gives to the new row. *)
Definition signup (m : method) (salt : string) (new_id : Z) (form : Form)
    (users : list User) (session : Session)
  : result (Response * list User * Session) :=
  match m with
  | GET => Ok (Render "signup.html" None, users, session)
  | POST =>
      email <- getitem "email" form ;;
      let email := Str.lower (Str.strip email) in
      password <- getitem "password" form ;;
      if (String.length password <? 6)%nat then
        Ok (Render "signup.html" (Some "Password must be at least 6 characters."),
            users, session)
      else
        match insert_user {| user_id := new_id;
                             user_email := email;
                             user_password_hash := generate_password_hash salt password;
                             user_is_admin := 0 |} users with
        | None =>
            Ok (Render "signup.html" (Some "Email already registered."),
                users, session)
        | Some users' =>
            match find_user email users' with
            | Some row =>
                Ok (Redirect "home", users', sign_in (user_id row) email 0 session)
            | None => Raise TypeError
            end
        end
  end.

(** [login] *)
Definition login (m : method) (form : Form) (users : list User)
    (session : Session) : result (Response * Session) :=
  match m with
  | GET => Ok (Render "login.html" None, session)
  | POST =>
      email <- getitem "email" form ;;
      let email := Str.lower (Str.strip email) in
      password <- getitem "password" form ;;
      match find_user email users with
      | Some row =>
          if check_password_hash (user_password_hash row) password then
            Ok (Redirect "home",
                sign_in (user_id row) (user_email row) (user_is_admin row) session)
          else
            Ok (Render "login.html" (Some "Invalid email or password."), session)
      | None =>
          Ok (Render "login.html" (Some "Invalid email or password."), session)
      end
  end.

(** [admin_login] *)
Definition admin_login (m : method) (form : Form) (users : list User)
    (session : Session) : result (Response * Session) :=
  match m with
  | GET => Ok (Render "admin_login.html" None, session)
  | POST =>
      email <- getitem "email" form ;;
      let email := Str.lower (Str.strip email) in
      password <- getitem "password" form ;;
      match find_admin email users with
      | Some row =>
          if check_password_hash (user_password_hash row) password then
            Ok (Redirect "admin_dashboard",
                sign_in (user_id row) (user_email row) 1 session)
          else
            Ok (Render "admin_login.html" (Some "Invalid admin credentials."),
                session)
      | None =>
          Ok (Render "admin_login.html" (Some "Invalid admin credentials."),
              session)
      end
  end.

(** [logout]: [session.clear()] *)
Definition logout (session : Session) : Response * Session :=
  (Redirect "home", []).

Definition admin_email : string := "admin@academicachievers.app".
Definition admin_password : string := "admin123".

(** [seed_admin]: [None] is the [IntegrityError] raised when the address
    of the bootstrap admin is already taken. *)
Definition seed_admin (salt : string) (new_id : Z) (users : list User)
  : option (list User) :=
  if Nat.eqb (List.length (filter (fun u => user_is_admin u =? 1) users)) 0 then
    insert_user {| user_id := new_id;
                   user_email := admin_email;
                   user_password_hash := generate_password_hash salt admin_password;
                   user_is_admin := 1 |} users
  else Some users.

End Accounts.

(* ================================================================= *)
(** ** The other pages on the listings *)

Section Pages.

Context {F : PyFloat}.

(** The row the [INSERT] of [add_scholarship] creates. *)
Definition inserted_row (id : Z) (fl : Fields)
    (image_filename brochure_filename : option string) : Scholarship :=
  {| col_id := id;
     col_name := f_name fl;
     col_country := f_country fl;
     col_university := Some (f_university fl);
     col_level := Some (f_level fl);
     col_field := Some (f_field fl);
     col_tags := Some (f_tags fl);
     col_deadline := f_deadline fl;
     col_link := f_link fl;
     col_checklist := Some (f_checklist fl);
     col_min_gpa := sql_of_float (f_min_gpa fl);
     col_is_international_only := f_is_international_only fl;
     col_image_filename := image_filename;
     col_brochure_filename := brochure_filename |}.

(** [add_scholarship], behind the check of [admin_required]: the store
    after the request.  [new_id] is the identifier the store gives to the
    new row. *)
Definition add_scholarship (is_admin : bool) (new_id : Z) (m : method)
    (form : Form) (files : list (string * FileStorage)) (st : Store)
  : result Store :=
  if negb is_admin then Ok st
  else
    match m with
    | GET => Ok st
    | POST =>
        fl <- extract_fields form ;;
        let image_file := lookup "image_file" files in
        let brochure_file := lookup "brochure_file" files in
        let image_filename : option string := None in
        let brochure_filename : option string := None in
        let folder := upload_folder st in
        let '(image_filename, folder) :=
          match uploaded image_file with
          | Some fs =>
              let n := upload_name "img_" (f_name fl) fs in
              (Some n, (n, file_content fs) :: folder)
          | None => (image_filename, folder)
          end in
        let '(brochure_filename, folder) :=
          match uploaded brochure_file with
          | Some fs =>
              let n := upload_name "doc_" (f_name fl) fs in
              (Some n, (n, file_content fs) :: folder)
          | None => (brochure_filename, folder)
          end in
        Ok {| scholarships_table :=
                scholarships_table st
                  ++ [inserted_row new_id fl image_filename brochure_filename];
              upload_folder := folder |}
    end.

(** [scholarship_detail]: the item shown, [None] for the redirect to the
    list. *)
Definition scholarship_detail (sid : Z) (db : Table) : option Item :=
  match find_by_id sid db with
  | Some r => Some (make_item r)
  | None => None
  end.

(** [SELECT * FROM scholarships ORDER BY id DESC] *)
Definition order_by_id_desc (db : Table) : list Scholarship :=
  sort_reverse Z.ltb col_id db.

(** [admin_dashboard], behind the check of [admin_required]: the items
    shown, [None] for the redirect to the admin login. *)
Definition admin_dashboard (is_admin : bool) (db : Table) : option (list Item) :=
  if negb is_admin then None
  else Some (map make_item (order_by_id_desc db)).

(** The menus of the eligibility form: the distinct values of a column
    that are neither [NULL] nor empty.  The order is the store's; only
    what the menus contain is stated below. *)
Definition distinct_nonempty (values : list (option string)) : list string :=
  nodup string_dec
    (flat_map (fun v => match v with
                        | Some s => if Str.truthy s then [s] else []
                        | None => []
                        end) values).

Definition menu_countries (db : Table) : list string :=
  distinct_nonempty (map (fun r => Some (col_country r)) db).

Definition menu_levels (db : Table) : list string :=
  distinct_nonempty (map col_level db).

Definition menu_fields (db : Table) : list string :=
  distinct_nonempty (map col_field db).

End Pages.

(* ================================================================= *)
(** ** More on the eligibility matcher *)

Section EligibilityMore.

Context {F : PyFloat}.

Lemma strip_nil : Str.strip "" = "".
Proof. reflexivity. Qed.

(** The form handler fails in one way only: a [ValueError] for a [gpa]
    that, stripped, is not empty and is no number.  No other field, no
    stored listing and no [GET] makes it fail. *)
Theorem eligibility_raises_iff (m : method) (form : Form) (db : Table) (e : exn) :
  eligibility m form db = Raise e <->
  m = POST /\ e = ValueError /\
  Str.strip (get "gpa" "" form) <> "" /\
  float_of_str (Str.strip (get "gpa" "" form)) = None.
Proof.
  destruct m; simpl.
  - split; [discriminate | intros [H _]; discriminate].
  - unfold eligibility_post, py_float_str.
    destruct (Str.strip (get "gpa" "" form)) as [|c s] eqn:Eg; simpl.
    + split; [discriminate | intros (_ & _ & H & _); congruence].
    + destruct (float_of_str (String c s)) as [g|]; simpl.
      * split; [discriminate | intros (_ & _ & _ & H); discriminate].
      * split.
        -- intros [= <-]. repeat split; discriminate.
        -- intros (_ & -> & _). reflexivity.
Qed.






(** A higher GPA never loses a listing, and no GPA at all sees every
    listing a GPA sees, provided [<] on floats is transitive. *)
Theorem higher_gpa_keeps_listings (country level field : string)
    (is_international : bool) (db : Table) (g1 g2 : float) (r : Scholarship) :
  (forall a b c, float_lt a b = true -> float_lt b c = true -> float_lt a c = true) ->
  float_lt g1 g2 = true ->
  In r (eligibility_results country level field (Some g1) is_international db) ->
  In r (eligibility_results country level field (Some g2) is_international db) /\
  In r (eligibility_results country level field None is_international db) /\
  In r (api_eligibility_rows country level field (JFloat g2)
          (JBool is_international) db).
Proof.
  intros Htrans Hlt.
  rewrite !eligibility_results_In, api_eligibility_rows_In.
  intros (Hr & Hm & Hg).
  assert (Hg2 : gate_excludes (Some g2) r = false).
  { destruct (gate_excludes (Some g2) r) eqn:E; [|reflexivity].
    apply gate_excludes_iff in E as (g & m0 & [= <-] & Hnn & Hp & Hgm).
    assert (E1 : gate_excludes (Some g1) r = true).
    { apply gate_excludes_iff. exists g1, m0. repeat split; eauto. }
    congruence. }
  split; [auto|]. split.
  - split; [exact Hr|]. split; [exact Hm | reflexivity].
  - split; [exact Hr|]. split; [exact Hm|]. now rewrite <- gates_agree.
Qed.

Lemma In_distinct_nonempty (s : string) (values : list (option string)) :
  In s (distinct_nonempty values) <-> s <> "" /\ In (Some s) values.
Proof.
  unfold distinct_nonempty. rewrite nodup_In, in_flat_map. split.
  - intros ([x|] & Hx & Hs); [|destruct Hs].
    destruct (Str.truthy x) eqn:E; [|destruct Hs].
    destruct Hs as [<-|[]]. split; [now apply StrFacts.truthy_true_iff | exact Hx].
  - intros [Hne Hin]. exists (Some s). split; [exact Hin|].
    apply StrFacts.truthy_true_iff in Hne. rewrite Hne. now left.
Qed.

(** Every entry of a menu of the eligibility form that has no blank
    around it finds listings when it is the only criterion sent: exactly
    the stored listings with that country, level or field, and at least
    one. *)
Theorem menu_entry_selects_listings (c : string) (db : Table) :
  Str.strip c = c ->
  (In c (menu_countries db) ->
   exists rows, eligibility POST [("country", c)] db = Ok rows /\ rows <> [] /\
                forall r, In r rows <-> In r db /\ col_country r = c) /\
  (In c (menu_levels db) ->
   exists rows, eligibility POST [("level", c)] db = Ok rows /\ rows <> [] /\
                forall r, In r rows <-> In r db /\ col_level r = Some c) /\
  (In c (menu_fields db) ->
   exists rows, eligibility POST [("field", c)] db = Ok rows /\ rows <> [] /\
                forall r, In r rows <-> In r db /\ col_field r = Some c).
Proof.
  intros Hs.
  assert (Hsel : forall r,
             (In r (eligibility_results c "" "" None false db) <->
              In r db /\ col_country r = c) /\
             (In r (eligibility_results "" c "" None false db) <->
              In r db /\ col_level r = Some c) /\
             (In r (eligibility_results "" "" c None false db) <->
              In r db /\ col_field r = Some c) \/ c = "").
  { intros r. destruct c as [|a c']; [now right|]. left.
    rewrite !eligibility_results_In. unfold meets_criteria. simpl.
    repeat split; intuition; discriminate. }
  repeat split.
  - intros Hin. apply In_distinct_nonempty in Hin as [Hne Hin].
    apply in_map_iff in Hin as (r0 & [= Hr0] & Hin0).
    eexists. split; [|split].
    + simpl. unfold eligibility_post, get. simpl. rewrite Hs, strip_nil. simpl.
      reflexivity.
    + intros E. destruct (Hsel r0) as [(H & _)|]; [|contradiction].
      assert (Hx : In r0 (eligibility_results c "" "" None false db))
        by (apply H; auto).
      rewrite E in Hx. destruct Hx.
    + intros r. destruct (Hsel r) as [(H & _)|]; [exact H | contradiction].
  - intros Hin. apply In_distinct_nonempty in Hin as [Hne Hin].
    apply in_map_iff in Hin as (r0 & Hr0 & Hin0).
    eexists. split; [|split].
    + simpl. unfold eligibility_post, get. simpl. rewrite Hs, strip_nil. simpl.
      reflexivity.
    + intros E. destruct (Hsel r0) as [(_ & H & _)|]; [|contradiction].
      assert (Hx : In r0 (eligibility_results "" c "" None false db))
        by (apply H; auto).
      rewrite E in Hx. destruct Hx.
    + intros r. destruct (Hsel r) as [(_ & H & _)|]; [exact H | contradiction].
  - intros Hin. apply In_distinct_nonempty in Hin as [Hne Hin].
    apply in_map_iff in Hin as (r0 & Hr0 & Hin0).
    eexists. split; [|split].
    + simpl. unfold eligibility_post, get. simpl. rewrite Hs, strip_nil. simpl.
      reflexivity.
    + intros E. destruct (Hsel r0) as [(_ & _ & H)|]; [|contradiction].
      assert (Hx : In r0 (eligibility_results "" "" c None false db))
        by (apply H; auto).
      rewrite E in Hx. destruct Hx.
    + intros r. destruct (Hsel r) as [(_ & _ & H)|]; [exact H | contradiction].
Qed.

End EligibilityMore.

(* ================================================================= *)
(** ** More on the browse page *)

Section BrowseMore.

Context {F : PyFloat}.

Import StrFacts.

(** The items the browse page has before it sorts them. *)
Definition filtered_items (args : Form) (db : Table) : list Item :=
  filter_items (Str.lower (Str.strip (get "q" "" args)))
               (Str.lower (Str.strip (get "country" "" args)))
               (map make_item db).

(** Among the listings whose deadline parses, the page is in the order
    asked for: under [deadline_asc] no listing follows one with a later
    date, under [deadline_desc] none follows one with an earlier date. *)
Theorem browse_in_deadline_order (args : Form) (db : Table)
    (l1 l2 : list Item) (x y : Item) (dx dy : datetime) :
  scholarships args db = l1 ++ x :: l2 ->
  In y l2 ->
  parse_date (col_deadline (item_row x)) = Some dx ->
  parse_date (col_deadline (item_row y)) = Some dy ->
  (get "sort" "" args = "deadline_asc" -> datetime_lt dy dx = false) /\
  (get "sort" "" args = "deadline_desc" -> datetime_lt dx dy = false).
Proof.
  rewrite scholarships_unfold. intros E Hy Hx Hdy. split; intros Hs;
    rewrite Hs in E; unfold sort_items in E; simpl in E.
  - pose proof (sort_order datetime_lt key_asc datetime_lt_asym
                  datetime_lt_cotrans _ l1 l2 x y E Hy) as H.
    unfold key_asc in H. now rewrite Hx, Hdy in H.
  - pose proof (sort_reverse_order datetime_lt key_desc datetime_lt_asym
                  datetime_lt_cotrans _ l1 l2 x y E Hy) as H.
    unfold key_desc in H. now rewrite Hx, Hdy in H.
Qed.

(** Sorting only rearranges: the page holds the filtered listings, each
    as often as before, and the listings that share a sort key (the same
    date, or no date that parses) stay in stored order, in both
    directions. *)
Theorem browse_sort_rearranges_stably (args : Form) (db : Table) :
  Permutation (filtered_items args db) (scholarships args db) /\
  (get "sort" "" args = "deadline_asc" ->
   forall k,
     filter (same_key datetime_lt key_asc k) (scholarships args db) =
     filter (same_key datetime_lt key_asc k) (filtered_items args db)) /\
  (get "sort" "" args = "deadline_desc" ->
   forall k,
     filter (same_key datetime_lt key_desc k) (scholarships args db) =
     filter (same_key datetime_lt key_desc k) (filtered_items args db)) /\
  (get "sort" "" args <> "deadline_asc" ->
   get "sort" "" args <> "deadline_desc" ->
   scholarships args db = filtered_items args db).
Proof.
  rewrite scholarships_unfold. fold (filtered_items args db).
  unfold sort_items. repeat split.
  - destruct (String.eqb _ "deadline_asc"); [apply sort_Permutation|].
    destruct (String.eqb _ "deadline_desc"); [|reflexivity].
    unfold sort_reverse.
    rewrite <- Permutation_rev, <- sort_Permutation. apply Permutation_rev.
  - intros -> k. simpl. apply sort_stable. apply datetime_lt_cotrans.
  - intros -> k. simpl. apply sort_reverse_stable. apply datetime_lt_cotrans.
  - intros Ha Hd. apply String.eqb_neq in Ha, Hd. now rewrite Ha, Hd.
Qed.

(** The page does not tell the case of the query nor of the country
    filter: two requests whose [q] and [country] differ only by case, with
    the same [sort], show the same page. *)
Theorem browse_ignores_case (args args' : Form) (db : Table) :
  Str.lower (get "q" "" args) = Str.lower (get "q" "" args') ->
  Str.lower (get "country" "" args) = Str.lower (get "country" "" args') ->
  get "sort" "" args = get "sort" "" args' ->
  scholarships args db = scholarships args' db.
Proof.
  intros Hq Hc Hs. rewrite !scholarships_unfold, !lower_strip.
  now rewrite Hq, Hc, Hs.
Qed.

Lemma is_substring_trans (a b c : string) :
  is_substring a b -> is_substring b c -> is_substring a c.
Proof.
  intros (a1 & a2 & ->) (b1 & b2 & ->).
  exists (b1 ++ a1)%string, (a2 ++ b2)%string.
  now rewrite !append_assoc.
Qed.

Lemma is_substring_nil (q : string) : is_substring q "" -> q = "".
Proof.
  intros (a & b & H). destruct a; [|discriminate].
  destruct q; [reflexivity | discriminate].
Qed.

(** Refining the query never brings a listing in: when the query of one
    request occurs in the query of another (both stripped and lowered) and
    the country filter is the same, every listing the second shows is
    shown by the first. *)
Theorem browse_longer_query_shows_less (args args' : Form) (db : Table)
    (r : Scholarship) :
  is_substring (Str.lower (Str.strip (get "q" "" args)))
               (Str.lower (Str.strip (get "q" "" args'))) ->
  get "country" "" args = get "country" "" args' ->
  In r (map item_row (scholarships args' db)) ->
  In r (map item_row (scholarships args db)).
Proof.
  intros Hq Hc. rewrite !scholarships_rows, Hc.
  intros (Hr & Hq' & Hc'). split; [exact Hr|]. split; [|exact Hc'].
  destruct Hq' as [E|Hsub].
  - left. rewrite E in Hq. now apply is_substring_nil.
  - right. now apply (is_substring_trans _ _ _ Hq).
Qed.

End BrowseMore.

(* ================================================================= *)
(** ** The seed loader *)

Section SeedMore.

Context {F : PyFloat}.

Lemma insert_seeds_map {B : Type} (f : Scholarship -> B) (g : SeedEntry -> B)
    (data : list SeedEntry) (next_id : Z) (db : Table) :
  (forall id s, f (seed_row id s) = g s) ->
  map f (insert_seeds next_id data db) = map f db ++ map g data.
Proof.
  intros Hfg. revert next_id db.
  induction data as [|s data IH]; intros next_id db; simpl.
  - now rewrite app_nil_r.
  - rewrite IH, map_app, <- app_assoc. simpl. now rewrite Hfg.
Qed.

Lemma insert_seeds_ids (data : list SeedEntry) (next_id : Z) (db : Table) :
  map col_id (insert_seeds next_id data db) =
  map col_id db ++
  map (fun i => next_id + Z.of_nat i) (seq 0 (List.length data)).
Proof.
  revert next_id db. induction data as [|s data IH]; intros next_id db; simpl.
  - now rewrite app_nil_r.
  - rewrite IH, map_app, <- app_assoc. simpl. f_equal. f_equal.
    + lia.
    + rewrite <- seq_shift, map_map. apply map_ext. intros i. lia.
Qed.

(** The loader seeds once: it leaves a table that has rows alone, and
    running it again on its own result, with the same file and whatever
    identifier, changes nothing. *)
Theorem seed_twice_is_seed_once (file : option (list SeedEntry))
    (next_id next_id' : Z) (db : Table) :
  (db <> [] -> seed_scholarships_from_json file next_id db = db) /\
  seed_scholarships_from_json file next_id'
    (seed_scholarships_from_json file next_id db)
  = seed_scholarships_from_json file next_id db.
Proof.
  split.
  - destruct db; [congruence | reflexivity].
  - destruct (seed_scholarships_from_json file next_id db) as [|r rows] eqn:E;
      [|reflexivity].
    destruct db; [|discriminate]. simpl in *.
    destruct file as [data|]; [|reflexivity].
    destruct data as [|s data]; [reflexivity|].
    exfalso. apply (f_equal (map col_id)) in E.
    rewrite insert_seeds_ids in E. simpl in E. discriminate.
Qed.

(** Seeding an empty table stores the entries of the file in their order,
    numbered from the next identifier on, and the API lists them with the
    name, country, deadline and link they had; none of them has a minimum
    GPA or is international-only, so the matcher without criteria returns
    them all whatever GPA is sent. *)
Theorem seed_keeps_the_file (data : list SeedEntry) (next_id : Z) :
  let db := seed_scholarships_from_json (Some data) next_id [] in
  map as_id (api_scholarships db)
  = map (fun i => next_id + Z.of_nat i) (seq 0 (List.length data)) /\
  map as_name (api_scholarships db) = map seed_name data /\
  map as_country (api_scholarships db) = map seed_country data /\
  map as_deadline (api_scholarships db) = map seed_deadline data /\
  map as_link (api_scholarships db) = map seed_link data /\
  (forall gpa, eligibility_results "" "" "" gpa false db = db) /\
  (forall gpa, api_eligibility_rows "" "" "" gpa (JBool false) db = db).
Proof.
  intros db. subst db. unfold seed_scholarships_from_json, api_scholarships.
  rewrite !map_map. cbn [as_id as_name as_country as_deadline as_link].
  split; [apply (insert_seeds_ids data next_id [])|].
  split; [apply (insert_seeds_map col_name seed_name data next_id []); reflexivity|].
  split; [apply (insert_seeds_map col_country seed_country data next_id []);
          reflexivity|].
  split; [apply (insert_seeds_map col_deadline seed_deadline data next_id []);
          reflexivity|].
  split; [apply (insert_seeds_map col_link seed_link data next_id []); reflexivity|].
  assert (Hnull : forall r, In r (insert_seeds next_id data []) ->
                            col_min_gpa r = SqlNull).
  { intros r Hr. apply (in_map col_min_gpa) in Hr.
    rewrite (insert_seeds_map col_min_gpa (fun _ => SqlNull) data next_id [])
      in Hr by reflexivity.
    simpl in Hr. apply in_map_iff in Hr as (s & Hs & _). now symmetry. }
  unfold eligibility_results, api_eligibility_rows, select_where. simpl.
  rewrite (filter_all (fun _ => true)) by reflexivity.
  split; intros gpa; apply filter_all; intros r Hr; apply negb_true_iff;
    now apply gates_permissive, Hnull.
Qed.

End SeedMore.

(* ================================================================= *)
(** ** The admin pages *)

Section AdminMore.

Context {F : PyFloat}.

Import StrFacts.

(** What makes the form of the admin pages unreadable. *)
Definition bad_admin_form (form : Form) (e : exn) : Prop :=
  (e = BadRequestKeyError /\
   (lookup "name" form = None \/ lookup "country" form = None \/
    lookup "link" form = None)) \/
  (e = ValueError /\
   lookup "name" form <> None /\ lookup "country" form <> None /\
   lookup "link" form <> None /\
   Str.strip (get "min_gpa" "" form) <> "" /\
   float_of_str (Str.strip (get "min_gpa" "" form)) = None).

Lemma extract_fields_raises_iff (form : Form) (e : exn) :
  extract_fields form = Raise e <-> bad_admin_form form e.
Proof.
  unfold extract_fields, getitem, bad_admin_form, py_float_str.
  destruct (lookup "name" form) as [name|]; simpl;
    [|split; [intros [= <-]; left; auto
             |intros [[-> _]|(_ & H & _)]; [reflexivity | congruence]]].
  destruct (lookup "country" form) as [country|]; simpl;
    [|split; [intros [= <-]; left; auto
             |intros [[-> _]|(_ & _ & H & _)]; [reflexivity | congruence]]].
  destruct (lookup "link" form) as [link|]; simpl;
    [|split; [intros [= <-]; left; auto
             |intros [[-> _]|(_ & _ & _ & H & _)]; [reflexivity | congruence]]].
  destruct (Str.strip (get "min_gpa" "" form)) as [|c s] eqn:Eg; simpl.
  - split; [discriminate|].
    intros [(_ & [H|[H|H]])|(_ & _ & _ & _ & H & _)]; congruence.
  - destruct (float_of_str (String c s)) as [g|]; simpl.
    + split; [discriminate|].
      intros [(_ & [H|[H|H]])|(_ & _ & _ & _ & _ & H)]; congruence.
    + split.
      * intros [= <-]. right. repeat split; discriminate.
      * intros [(_ & [H|[H|H]])|(-> & _)]; [discriminate.. | reflexivity].
Qed.

(** The add and the edit of an admin that bring no file fail in two ways
    only: a bad request when [name], [country] or [link] is missing from
    the form, and a [ValueError] when [min_gpa], stripped, is not empty and
    is no number.  Nothing is stored then. *)
Theorem admin_forms_raise_iff (form : Form) (files : list (string * FileStorage))
    (st : Store) (new_id sid : Z) (e : exn) :
  uploaded (lookup "image_file" files) = None ->
  uploaded (lookup "brochure_file" files) = None ->
  (add_scholarship true new_id POST form files st = Raise e <->
   bad_admin_form form e) /\
  (find_by_id sid (scholarships_table st) <> None ->
   (edit_scholarship true sid POST form files st = Raise e <->
    bad_admin_form form e)).
Proof.
  intros Hi Hb. rewrite <- extract_fields_raises_iff. split.
  - unfold add_scholarship. rewrite Hi, Hb. simpl.
    destruct (extract_fields form) as [fl|e']; simpl;
      [|split; intros [= ->]; reflexivity].
    split; discriminate.
  - intros Hf. unfold edit_scholarship. rewrite Hi, Hb. simpl.
    destruct (find_by_id sid (scholarships_table st)) as [r|]; [|congruence].
    destruct (extract_fields form) as [fl|e']; simpl;
      [|split; intros [= ->]; reflexivity].
    split; discriminate.
Qed.




Lemma update_by_id_idempotent (sid : Z) (new : Scholarship -> Scholarship)
    (db : Table) :
  (forall x, col_id (new x) = col_id x) ->
  (forall x, new (new x) = new x) ->
  update_by_id sid new (update_by_id sid new db) = update_by_id sid new db.
Proof.
  intros Hid Hnew. unfold update_by_id. rewrite map_map. apply map_ext.
  intros r. destruct (col_id r =? sid) eqn:E.
  - now rewrite Hid, E, Hnew.
  - now rewrite E.
Qed.

(** An edit that brings no file can be sent twice: the second request
    leaves the store as the first one made it. *)
Theorem edit_twice_is_edit_once (is_admin : bool) (sid : Z) (m : method)
    (form : Form) (files : list (string * FileStorage)) (st st1 : Store) :
  uploaded (lookup "image_file" files) = None ->
  uploaded (lookup "brochure_file" files) = None ->
  edit_scholarship is_admin sid m form files st = Ok st1 ->
  edit_scholarship is_admin sid m form files st1 = Ok st1.
Proof.
  intros Hi Hb. unfold edit_scholarship. rewrite Hi, Hb.
  destruct is_admin; simpl; [|now intros [= <-]].
  destruct (find_by_id sid (scholarships_table st)) as [r|] eqn:Hr.
  2: { intros [= <-]. now rewrite Hr. }
  destruct m.
  { intros [= <-]. now rewrite Hr. }
  destruct (extract_fields form) as [fl|e]; simpl; [|discriminate].
  intros [= <-]. cbn [scholarships_table upload_folder].
  rewrite (find_update_by_id sid _ _ r) by (reflexivity || exact Hr).
  cbn [updated_row col_image_filename col_brochure_filename].
  f_equal. f_equal.
  apply update_by_id_idempotent; reflexivity.
Qed.

(** No edit creates, removes, renumbers or reorders a listing: whatever
    the request, the identifiers of the table are the same list
    afterwards. *)
Theorem edit_keeps_the_identifiers (is_admin : bool) (sid : Z) (m : method)
    (form : Form) (files : list (string * FileStorage)) (st st' : Store) :
  edit_scholarship is_admin sid m form files st = Ok st' ->
  map col_id (scholarships_table st') = map col_id (scholarships_table st).
Proof.
  unfold edit_scholarship.
  destruct is_admin; simpl; [|now intros [= <-]].
  destruct (find_by_id sid (scholarships_table st)) as [r|]; [|now intros [= <-]].
  destruct m; [now intros [= <-]|].
  destruct (extract_fields form) as [fl|e]; simpl; [|discriminate].
  destruct (uploaded (lookup "image_file" files)),
    (uploaded (lookup "brochure_file" files));
    intros [= <-]; cbn [scholarships_table]; unfold update_by_id;
    rewrite map_map; apply map_ext; intros x;
    now destruct (col_id x =? sid).
Qed.

Lemma Zltb_asym (a b : Z) : (a <? b) = true -> (b <? a) = false.
Proof. rewrite Z.ltb_lt, Z.ltb_ge. lia. Qed.

Lemma Zltb_cotrans (a b c : Z) :
  (a <? c) = true -> (a <? b) = true \/ (b <? c) = true.
Proof. rewrite !Z.ltb_lt. lia. Qed.

Lemma map_item_row_make_item (l : list Scholarship) :
  map item_row (map make_item l) = l.
Proof. rewrite map_map. apply map_id. Qed.

(** The dashboard of an admin shows every listing once, the newest
    first: no listing stands after one with a smaller identifier.  Without
    admin rights it shows nothing. *)
Theorem dashboard_newest_first (db : Table) :
  admin_dashboard false db = None /\
  exists items,
    admin_dashboard true db = Some items /\
    Permutation db (map item_row items) /\
    forall l1 x l2 y,
      items = l1 ++ x :: l2 -> In y l2 ->
      col_id (item_row y) <= col_id (item_row x).
Proof.
  split; [reflexivity|]. eexists. split; [reflexivity|].
  rewrite map_item_row_make_item. unfold order_by_id_desc. split.
  - unfold sort_reverse.
    rewrite <- Permutation_rev, <- sort_Permutation. apply Permutation_rev.
  - intros l1 x l2 y E Hy.
    apply (f_equal (map item_row)) in E.
    rewrite map_item_row_make_item, map_app in E. simpl in E.
    apply (in_map item_row) in Hy.
    pose proof (sort_reverse_order Z.ltb col_id Zltb_asym Zltb_cotrans
                  _ _ _ _ _ E Hy) as H.
    apply Z.ltb_ge in H. exact H.
Qed.

End AdminMore.

(* ================================================================= *)
(** ** The checklist typed into the admin form *)

Section ChecklistMore.

Context {F : PyFloat}.

Import StrFacts.

(** The line break a browser sends for a line of a text area. *)
Definition crlf : string := String "013"%char (String "010"%char EmptyString).

Lemma splitlines_line_crlf (l rest : string) :
  no_linebreak l = true ->
  Str.splitlines (l ++ crlf ++ rest) = l :: Str.splitlines rest.
Proof.
  induction l as [|c l IH]; intros H.
  - reflexivity.
  - simpl in H. apply andb_true_iff in H as [Hc Hl].
    apply negb_true_iff in Hc.
    change (Str.splitlines (String c (l ++ crlf ++ rest))
            = String c l :: Str.splitlines rest).
    cbn [Str.splitlines]. rewrite Hc, (IH Hl). reflexivity.
Qed.

Lemma splitlines_join_crlf (items : list string) :
  storable items -> Str.splitlines (Str.join crlf items) = items.
Proof.
  unfold storable.
  induction items as [|x [|y rest] IH]; intros [Hnl Hlast].
  - reflexivity.
  - simpl in *. apply splitlines_one_line; [now apply Hnl; left|].
    now apply truthy_true_iff.
  - change (Str.join crlf (x :: y :: rest))
      with (x ++ crlf ++ Str.join crlf (y :: rest))%string.
    rewrite splitlines_line_crlf by (apply Hnl; now left).
    f_equal. apply IH. split; [|exact Hlast].
    intros z Hz. apply Hnl. now right.
Qed.

Lemma extract_fields_checklist (form : Form) (fl : Fields) :
  extract_fields form = Ok fl ->
  f_checklist fl = Str.strip (get "checklist" "" form).
Proof.
  unfold extract_fields, getitem, py_float_str.
  destruct (lookup "name" form); simpl; [|discriminate].
  destruct (lookup "country" form); simpl; [|discriminate].
  destruct (lookup "link" form); simpl; [|discriminate].
  destruct (Str.truthy (Str.strip (get "min_gpa" "" form))); simpl.
  - destruct (float_of_str _); simpl; [|discriminate]. now intros [= <-].
  - now intros [= <-].
Qed.

(** A checklist typed into the admin form, one item a line, is the
    checklist the detail page shows after an edit without files: the
    lines may end in a newline or in the carriage return and newline a
    browser sends, no item holds a line break, the last item is not empty
    and the text has no blank at either end (the handler strips it). *)
Theorem typed_checklist_is_shown (sid : Z) (form : Form)
    (files : list (string * FileStorage)) (st : Store) (r : Scholarship)
    (fl : Fields) (sep : string) (items : list string) :
  uploaded (lookup "image_file" files) = None ->
  uploaded (lookup "brochure_file" files) = None ->
  find_by_id sid (scholarships_table st) = Some r ->
  extract_fields form = Ok fl ->
  sep = Str.nl \/ sep = crlf ->
  get "checklist" "" form = Str.join sep items ->
  storable items ->
  Str.strip (Str.join sep items) = Str.join sep items ->
  exists st',
    edit_scholarship true sid POST form files st = Ok st' /\
    option_map item_checklist (scholarship_detail sid (scholarships_table st'))
    = Some items.
Proof.
  intros Hi Hb Hr Hfl Hsep Hc Hst Hstrip.
  pose proof (extract_fields_checklist form fl Hfl) as Hcl.
  rewrite Hc, Hstrip in Hcl.
  unfold edit_scholarship. rewrite Hi, Hb. simpl. rewrite Hr, Hfl. simpl.
  eexists; split; [reflexivity|].
  cbn [scholarships_table]. unfold scholarship_detail.
  rewrite (find_update_by_id sid _ _ r) by (reflexivity || exact Hr).
  cbn [option_map make_item item_checklist updated_row col_checklist].
  rewrite Hcl, read_checklist_splitlines. f_equal.
  destruct Hsep as [->| ->];
    [apply splitlines_join | apply splitlines_join_crlf]; exact Hst.
Qed.

End ChecklistMore.

(* ================================================================= *)
(** ** Accounts and sessions *)

Section AccountsMore.

Context {P : PasswordHash}.

Definition is_admin_row (u : User) : bool := user_is_admin u =? 1.

(** The address the handlers look an account up by. *)
Definition normal_email (email : string) : string :=
  Str.lower (Str.strip email).

Lemma current_user_sign_in (id : Z) (email : string) (a : Z) (session : Session) :
  current_user (sign_in id email a session)
  = Some {| cu_id := SInt id; cu_email := Some (SStr email); cu_is_admin := SInt a |}.
Proof. reflexivity. Qed.

Lemma admin_passes_sign_in (id : Z) (email : string) (a : Z) (session : Session) :
  admin_passes (sign_in id email a session) = negb (a =? 0).
Proof. reflexivity. Qed.

Lemma insert_user_some (u : User) (users : list User) :
  find_user (user_email u) users = None ->
  insert_user u users = Some (users ++ [u]).
Proof.
  unfold insert_user, find_user. intros H.
  destruct (existsb _ users) eqn:E; [|reflexivity].
  apply existsb_exists in E as (x & Hx & Ex).
  pose proof (find_none _ _ H x Hx) as Hn. simpl in Hn. congruence.
Qed.

Lemma insert_user_inv (u : User) (users users' : list User) :
  insert_user u users = Some users' ->
  users' = users ++ [u] /\ forall x, In x users -> user_email x <> user_email u.
Proof.
  unfold insert_user. destruct (existsb _ users) eqn:E; [discriminate|].
  intros [= <-]. split; [reflexivity|].
  intros x Hx Heq.
  assert (H : existsb (fun x0 => String.eqb (user_email x0) (user_email u)) users
              = true).
  { apply existsb_exists. exists x. split; [exact Hx | now apply String.eqb_eq]. }
  congruence.
Qed.

Lemma find_user_app_new (u : User) (users : list User) :
  find_user (user_email u) users = None ->
  find_user (user_email u) (users ++ [u]) = Some u.
Proof.
  unfold find_user. intros H.
  induction users as [|x users IH]; simpl in *.
  - now rewrite String.eqb_refl.
  - destruct (String.eqb (user_email x) (user_email u)); [discriminate|].
    now apply IH.
Qed.

Lemma find_user_none_of_distinct (u : User) (users : list User) :
  (forall x, In x users -> user_email x <> user_email u) ->
  find_user (user_email u) users = None.
Proof.
  intros H. unfold find_user.
  destruct (find _ users) as [x|] eqn:E; [|reflexivity].
  apply find_some in E as [Hx Ex]. apply String.eqb_eq in Ex.
  now destruct (H x Hx).
Qed.

(** Signing up and then logging in: a sign-up with a password of six
    characters or more and an address that, stripped and lowered, is not
    registered creates the account and signs the client in without admin
    rights; after that a login with the same password and the same
    address, in any case and with any blanks around it, signs in as that
    account.  The hash accepts the password it was made from. *)
Theorem signup_then_login (salt : string) (new_id : Z) (form form' : Form)
    (users : list User) (session session' : Session)
    (email email' password : string) :
  hash_accepts_own_password ->
  lookup "email" form = Some email ->
  lookup "password" form = Some password ->
  (6 <= String.length password)%nat ->
  find_user (normal_email email) users = None ->
  lookup "email" form' = Some email' ->
  lookup "password" form' = Some password ->
  normal_email email' = normal_email email ->
  exists users',
    signup POST salt new_id form users session
    = Ok (Redirect "home", users',
          sign_in new_id (normal_email email) 0 session) /\
    admin_passes (sign_in new_id (normal_email email) 0 session) = false /\
    login POST form' users' session'
    = Ok (Redirect "home", sign_in new_id (normal_email email) 0 session').
Proof.
  intros Hhash He Hp Hlen Hfree He' Hp' Hnorm.
  set (u := {| user_id := new_id; user_email := normal_email email;
               user_password_hash := generate_password_hash salt password;
               user_is_admin := 0 |}).
  exists (users ++ [u]).
  assert (Hlt : (String.length password <? 6)%nat = false)
    by (apply Nat.ltb_ge; exact Hlen).
  split; [|split; [reflexivity|]].
  - unfold signup, getitem. rewrite He, Hp. simpl. rewrite Hlt.
    fold (normal_email email). fold u.
    rewrite (insert_user_some u users Hfree).
    change (normal_email email) with (user_email u) at 1.
    rewrite (find_user_app_new u users Hfree). reflexivity.
  - unfold login, getitem. rewrite He', Hp'. simpl.
    fold (normal_email email'). rewrite Hnorm.
    change (normal_email email) with (user_email u) at 1.
    rewrite (find_user_app_new u users Hfree). simpl.
    now rewrite Hhash.
Qed.

(** What a sign-up can do to the accounts: whatever the request, the
    accounts there were stay as they were, at most one is added and it is
    no admin, the addresses stay distinct, and a request that leaves the
    client with admin rights has changed neither the accounts nor the
    session. *)
Theorem signup_keeps_the_accounts (m : method) (salt : string) (new_id : Z)
    (form : Form) (users users' : list User) (session session' : Session)
    (resp : Response) :
  signup m salt new_id form users session = Ok (resp, users', session') ->
  (users' = users \/
   exists u, users' = users ++ [u] /\ user_is_admin u = 0 /\ user_id u = new_id) /\
  filter is_admin_row users' = filter is_admin_row users /\
  (NoDup (map user_email users) -> NoDup (map user_email users')) /\
  (admin_passes session' = true -> users' = users /\ session' = session).
Proof.
  unfold signup, getitem. destruct m.
  { intros [= <- <- <-]. repeat split; auto. }
  destruct (lookup "email" form) as [email|]; simpl; [|discriminate].
  destruct (lookup "password" form) as [password|]; simpl; [|discriminate].
  destruct (String.length password <? 6)%nat.
  { intros [= <- <- <-]. repeat split; auto. }
  match goal with
  | |- context [insert_user ?x users] => set (u := x)
  end.
  destruct (insert_user u users) as [us|] eqn:Ei.
  2: { intros [= <- <- <-]. repeat split; auto. }
  apply insert_user_inv in Ei as [-> Hdist].
  destruct (find_user _ (users ++ [u])) as [row|]; [|discriminate].
  intros [= <- <- <-]. split; [|split; [|split]].
  - right. exists u. auto.
  - rewrite filter_app. simpl. apply app_nil_r.
  - intros Hnd. rewrite map_app. simpl.
    apply (Permutation_NoDup (Permutation_cons_append _ _)).
    constructor; [|exact Hnd].
    intros Hin. apply in_map_iff in Hin as (x & Hx & Hin).
    now apply (Hdist x Hin).
  - rewrite admin_passes_sign_in. discriminate.
Qed.

(** Admin rights come from the credentials of an admin only: when a login
    or an admin login leaves a session that passes [admin_required], then
    either the session is the one the client had, or the form held the
    address and a password of an account whose [is_admin] is not 0 (is 1,
    for the admin login). *)
Theorem admin_rights_need_an_admin (form : Form) (users : list User)
    (session session' : Session) (resp : Response) :
  (login POST form users session = Ok (resp, session') ->
   admin_passes session' = true ->
   session' = session \/
   exists u email password,
     In u users /\ user_is_admin u <> 0 /\
     lookup "email" form = Some email /\ user_email u = normal_email email /\
     lookup "password" form = Some password /\
     check_password_hash (user_password_hash u) password = true) /\
  (admin_login POST form users session = Ok (resp, session') ->
   session' = session \/
   exists u email password,
     In u users /\ user_is_admin u = 1 /\
     lookup "email" form = Some email /\ user_email u = normal_email email /\
     lookup "password" form = Some password /\
     check_password_hash (user_password_hash u) password = true).
Proof.
  split.
  - unfold login, getitem.
    destruct (lookup "email" form) as [email|]; simpl; [|discriminate].
    destruct (lookup "password" form) as [password|]; simpl; [|discriminate].
    destruct (find_user _ users) as [row|] eqn:Ef; [|intros [= <- <-]; auto].
    destruct (check_password_hash _ password) eqn:Ec; [|intros [= <- <-]; auto].
    intros [= <- <-]. rewrite admin_passes_sign_in. intros Ha.
    right. exists row, email, password.
    apply find_some in Ef as [Hin Hem]. apply String.eqb_eq in Hem.
    repeat split; auto.
    intros E. rewrite E in Ha. discriminate.
  - unfold admin_login, getitem.
    destruct (lookup "email" form) as [email|]; simpl; [|discriminate].
    destruct (lookup "password" form) as [password|]; simpl; [|discriminate].
    destruct (find_admin _ users) as [row|] eqn:Ef; [|intros [= <- <-]; auto].
    destruct (check_password_hash _ password) eqn:Ec; [|intros [= <- <-]; auto].
    intros [= <- <-]. right. exists row, email, password.
    apply find_some in Ef as [Hin Hem].
    apply andb_true_iff in Hem as [Hem Had].
    apply String.eqb_eq in Hem. apply Z.eqb_eq in Had.
    repeat split; auto.
Qed.

(** The bootstrap of the admin account runs once: a run that ends leaves
    an admin in the table, keeps the accounts there were, adds at most the
    bootstrap admin, and a further run changes nothing. *)
Theorem seed_admin_once (salt salt' : string) (new_id new_id' : Z)
    (users users' : list User) :
  seed_admin salt new_id users = Some users' ->
  (exists u, In u users' /\ user_is_admin u = 1) /\
  (users' = users \/
   exists u, users' = users ++ [u] /\ user_email u = admin_email /\
             user_is_admin u = 1) /\
  seed_admin salt' new_id' users' = Some users'.
Proof.
  unfold seed_admin.
  destruct (filter (fun u => user_is_admin u =? 1) users) as [|a admins] eqn:Ef;
    simpl.
  - intros Hi. apply insert_user_inv in Hi as [-> _].
    match goal with |- context [users ++ [?x]] => set (u := x) end.
    split; [|split].
    + exists u. split; [apply in_or_app; right; now left | reflexivity].
    + right. exists u. auto.
    + rewrite filter_app, Ef. reflexivity.
  - intros [= <-]. split; [|split].
    + exists a. assert (Ha : In a (filter (fun u => user_is_admin u =? 1) users))
        by (rewrite Ef; now left).
      apply filter_In in Ha as [Ha Hb]. apply Z.eqb_eq in Hb. auto.
    + now left.
    + now rewrite Ef.
Qed.

(** On a table with no admin and no account under the bootstrap address,
    the bootstrap creates an admin that the built-in address and password
    log in: the admin login answers with the redirect to the dashboard and
    a session that passes [admin_required]. *)
Theorem seeded_admin_logs_in (salt : string) (new_id : Z) (users : list User)
    (session : Session) :
  hash_accepts_own_password ->
  filter is_admin_row users = [] ->
  find_user admin_email users = None ->
  exists users',
    seed_admin salt new_id users = Some users' /\
    admin_login POST [("email", admin_email); ("password", admin_password)]
      users' session
    = Ok (Redirect "admin_dashboard", sign_in new_id admin_email 1 session) /\
    admin_passes (sign_in new_id admin_email 1 session) = true.
Proof.
  intros Hhash Hnone Hfree.
  set (u := {| user_id := new_id; user_email := admin_email;
               user_password_hash := generate_password_hash salt admin_password;
               user_is_admin := 1 |}).
  exists (users ++ [u]). split; [|split; [|reflexivity]].
  - unfold seed_admin. unfold is_admin_row in Hnone. rewrite Hnone. simpl.
    fold u. now apply insert_user_some.
  - unfold admin_login, getitem.
    change (lookup "email" [("email", admin_email); ("password", admin_password)])
      with (Some admin_email).
    change (lookup "password" [("email", admin_email); ("password", admin_password)])
      with (Some admin_password).
    unfold bind.
    assert (En : Str.lower (Str.strip admin_email) = admin_email)
      by (vm_compute; reflexivity).
    rewrite En.
    assert (Ef : find_admin admin_email (users ++ [u]) = Some u).
    { unfold find_admin. unfold is_admin_row in Hnone.
      clear -Hnone. induction users as [|x users IH]; simpl in *.
      - reflexivity.
      - destruct (user_is_admin x =? 1) eqn:E; [discriminate|].
        rewrite andb_false_r. now apply IH. }
    rewrite Ef. simpl. now rewrite Hhash.
Qed.

End AccountsMore.

(* ================================================================= *)
(** ** The two GPA gates, exactly *)

Section GateMore.

Context {F : PyFloat}.

(** When a gate drops a row.  The form handler, holding the GPA it parsed,
    drops a row exactly when there is a GPA, the row's [min_gpa] is not
    [NULL] and reads as a number, and the GPA is below it.  The JSON
    handler drops a row exactly when [gpa] is not null and reads as a
    number (a number, a boolean, or a string that [float] accepts), the
    row's [min_gpa] is not [NULL] and reads as a number, and the first is
    below the second. *)
Theorem gpa_gates_exact (r : Scholarship) :
  (forall gpa,
      gate_excludes gpa r = true <->
      exists g m, gpa = Some g /\ col_min_gpa r <> SqlNull /\
                  py_float_sql (col_min_gpa r) = Ok m /\ float_lt g m = true) /\
  (forall gpa,
      api_gate_excludes gpa r = true <->
      exists g m, gpa <> JNull /\ col_min_gpa r <> SqlNull /\
                  py_float_json gpa = Ok g /\
                  py_float_sql (col_min_gpa r) = Ok m /\ float_lt g m = true).
Proof.
  split; intros gpa.
  - unfold gate_excludes. split.
    + destruct gpa as [g|]; [|discriminate].
      destruct (sql_is_not_None (col_min_gpa r)) eqn:En; [|discriminate].
      destruct (py_float_sql (col_min_gpa r)) as [m|e] eqn:Ep; [|discriminate].
      intros Hlt. exists g, m. repeat split; auto.
      intros E. rewrite E in En. discriminate.
    + intros (g & m & -> & Hnn & Hp & Hlt).
      destruct (col_min_gpa r) eqn:Ec; [congruence|..]; simpl in *;
        rewrite ?Hp; try (injection Hp as <-); exact Hlt.
  - unfold api_gate_excludes. cbv zeta. split.
    + destruct (json_is_not_None gpa) eqn:Eg; [|discriminate].
      destruct (sql_is_not_None (col_min_gpa r)) eqn:En; [|discriminate].
      simpl. unfold bind.
      destruct (py_float_json gpa) as [g|]; [|discriminate].
      destruct (py_float_sql (col_min_gpa r)) as [m|]; [|discriminate].
      intros Hlt. exists g, m. repeat split; auto.
      * intros ->. discriminate.
      * intros E. rewrite E in En. discriminate.
    + intros (g & m & Hg & Hm & Pg & Pm & Hlt).
      assert (Eg : json_is_not_None gpa = true)
        by (destruct gpa; [congruence|reflexivity..]).
      assert (Em : sql_is_not_None (col_min_gpa r) = true)
        by (destruct (col_min_gpa r); [congruence|reflexivity..]).
      rewrite Eg, Em. simpl. unfold bind. rewrite Pg, Pm. exact Hlt.
Qed.

End GateMore.

(* ================================================================= *)
(** ** Sessions and the admin pages together *)

Section SessionsAndPages.

Context {P : PasswordHash} {F : PyFloat}.

(** An account made by sign-up opens no admin page: with the session a
    successful sign-up leaves, the add and the edit change nothing in the
    store and the dashboard is not shown; the same holds once the client
    has logged out. *)
Theorem signed_up_client_is_no_admin (salt : string) (new_id : Z)
    (signup_form : Form) (users users' : list User) (session session' : Session)
    (sid id : Z) (m : method) (form : Form)
    (files : list (string * FileStorage)) (st : Store) :
  signup POST salt new_id signup_form users session
  = Ok (Redirect "home", users', session') ->
  (edit_scholarship (admin_passes session') sid m form files st = Ok st /\
   add_scholarship (admin_passes session') id m form files st = Ok st /\
   admin_dashboard (admin_passes session') (scholarships_table st) = None) /\
  (edit_scholarship (admin_passes (snd (logout session'))) sid m form files st
   = Ok st /\
   add_scholarship (admin_passes (snd (logout session'))) id m form files st
   = Ok st /\
   admin_dashboard (admin_passes (snd (logout session'))) (scholarships_table st)
   = None).
Proof.
  intros Hs.
  assert (Hno : admin_passes session' = false).
  { revert Hs. unfold signup, getitem.
    destruct (lookup "email" signup_form); simpl; [|discriminate].
    destruct (lookup "password" signup_form) as [password|]; simpl;
      [|discriminate].
    destruct (String.length password <? 6)%nat; [discriminate|].
    destruct (insert_user _ users); [|discriminate].
    destruct (find_user _ _); [|discriminate].
    intros [= _ <-]. reflexivity. }
  rewrite Hno. repeat split.
Qed.

End SessionsAndPages.

(* ================================================================= *)
(** ** A password scheme to run examples on *)

(** A stand-in that keeps the password as it is and ignores the salt. *)
#[export] Instance plain_hash : PasswordHash := {|
  generate_password_hash := fun _ password => password;
  check_password_hash := fun h password => String.eqb h password
|}.

Lemma plain_hash_accepts : hash_accepts_own_password.
Proof. intros salt password. apply String.eqb_refl. Qed.

Lemma decimal_lt_trans (a b c : DecimalFloat.dfloat) :
  DecimalFloat.lt a b = true -> DecimalFloat.lt b c = true ->
  DecimalFloat.lt a c = true.
Proof.
  destruct a as [x|na|], b as [y|nb|], c as [z|nc|];
    unfold DecimalFloat.lt; intros H1 H2;
    try discriminate; try assumption; try reflexivity;
    try (repeat match goal with n : bool |- _ => destruct n end;
         simpl in *; first [discriminate | reflexivity]).
  destruct (x ?= y)%Q eqn:E1; try discriminate.
  destruct (y ?= z)%Q eqn:E2; try discriminate.
  apply Qlt_alt in E1, E2.
  pose proof (Qlt_trans _ _ _ E1 E2) as H. apply Qlt_alt in H.
  destruct (x ?= z)%Q eqn:E3; [|reflexivity|]; unfold Qcompare in *; congruence.
Qed.

(* ================================================================= *)
(** ** The further properties on concrete requests *)

Module Runs.

Import DecimalFloat Examples.

(** A listing with an early deadline and one whose deadline is no date. *)
Definition daad : Scholarship :=
  {| col_id := 4;
     col_name := "DAAD Research Grant";
     col_country := "Germany";
     col_university := None;
     col_level := Some "PhD";
     col_field := Some "Physics";
     col_tags := None;
     col_deadline := Some "2025-03-15";
     col_link := "https://example.org/daad";
     col_checklist := None;
     col_min_gpa := SqlText "n/a";
     col_is_international_only := 1;
     col_image_filename := None;
     col_brochure_filename := None |}.

Definition rhodes : Scholarship :=
  {| col_id := 5;
     col_name := "Rhodes Scholarship";
     col_country := "UK";
     col_university := None;
     col_level := None;
     col_field := None;
     col_tags := None;
     col_deadline := Some "soon";
     col_link := "https://example.org/rhodes";
     col_checklist := None;
     col_min_gpa := SqlNull;
     col_is_international_only := 0;
     col_image_filename := None;
     col_brochure_filename := None |}.

Lemma higher_gpa_on_fulbright :
  (forall a b c : float,
      float_lt a b = true -> float_lt b c = true -> float_lt a c = true) /\
  float_lt (Fin (7 # 2)) (Fin 4) = true /\
  In fulbright (eligibility_results "" "" "" (Some (Fin (7 # 2))) false db) /\
  In fulbright (eligibility_results "" "" "" (Some (Fin 4)) false db).
Proof.
  assert (H : In fulbright
                (eligibility_results "" "" "" (Some (Fin (7 # 2))) false db))
    by (left; reflexivity).
  split; [exact decimal_lt_trans|]. split; [reflexivity|]. split; [exact H|].
  exact (proj1 (higher_gpa_keeps_listings "" "" "" false db (Fin (7 # 2)) (Fin 4)
                  fulbright decimal_lt_trans eq_refl H)).
Defined.

Lemma menu_offers_usa :
  Str.strip "USA" = "USA" /\
  In "USA" (menu_countries db) /\
  exists rows,
    eligibility POST [("country", "USA")] db = Ok rows /\ rows <> [] /\
    forall r, In r rows <-> In r db /\ col_country r = "USA".
Proof.
  assert (Hs : Str.strip "USA" = "USA") by reflexivity.
  assert (Hin : In "USA" (menu_countries db)).
  { apply In_distinct_nonempty. split; [discriminate | left; reflexivity]. }
  split; [exact Hs|]. split; [exact Hin|].
  exact (proj1 (menu_entry_selects_listings "USA" db Hs) Hin).
Defined.

Lemma two_dated_listings_ascending :
  scholarships [("sort", "deadline_asc")] [fulbright; daad]
  = [] ++ make_item daad :: [make_item fulbright] /\
  In (make_item fulbright) [make_item fulbright] /\
  datetime_lt
    {| year := 2025; month := 10; day := 1;
       hour := 0; minute := 0; second := 0; microsecond := 0 |}
    {| year := 2025; month := 3; day := 15;
       hour := 0; minute := 0; second := 0; microsecond := 0 |} = false.
Proof.
  split; [reflexivity|]. split; [now left|].
  exact (proj1 (browse_in_deadline_order [("sort", "deadline_asc")]
                  [fulbright; daad] [] [make_item fulbright]
                  (make_item daad) (make_item fulbright) _ _
                  eq_refl (or_introl eq_refl) eq_refl eq_refl) eq_refl).
Defined.

Lemma query_in_capitals_same_page :
  Str.lower (get "q" "" [("q", "FUL")]) = Str.lower (get "q" "" [("q", "ful")]) /\
  scholarships [("q", "FUL")] db = scholarships [("q", "ful")] db.
Proof.
  split; [reflexivity|].
  exact (browse_ignores_case [("q", "FUL")] [("q", "ful")] db
           eq_refl eq_refl eq_refl).
Defined.

Lemma longer_query_on_fulbright :
  StrFacts.is_substring (Str.lower (Str.strip (get "q" "" [("q", "ful")])))
                        (Str.lower (Str.strip (get "q" "" [("q", "fulb")]))) /\
  In fulbright (map item_row (scholarships [("q", "fulb")] db)) /\
  In fulbright (map item_row (scholarships [("q", "ful")] db)).
Proof.
  assert (Hs : StrFacts.is_substring
                 (Str.lower (Str.strip (get "q" "" [("q", "ful")])))
                 (Str.lower (Str.strip (get "q" "" [("q", "fulb")]))))
    by (exists "", "b"; reflexivity).
  assert (Hin : In fulbright (map item_row (scholarships [("q", "fulb")] db)))
    by (left; reflexivity).
  split; [exact Hs|]. split; [exact Hin|].
  exact (browse_longer_query_shows_less [("q", "ful")] [("q", "fulb")] db
           fulbright Hs eq_refl Hin).
Defined.


Lemma form_with_bad_min_gpa :
  uploaded (lookup "image_file" (@nil (string * FileStorage))) = None /\
  uploaded (lookup "brochure_file" (@nil (string * FileStorage))) = None /\
  add_scholarship true 3 POST
    [("name", "x"); ("country", "y"); ("link", "z"); ("min_gpa", "high")] [] store
  = Raise ValueError /\
  bad_admin_form
    [("name", "x"); ("country", "y"); ("link", "z"); ("min_gpa", "high")]
    ValueError.
Proof.
  split; [reflexivity|]. split; [reflexivity|].
  assert (H : add_scholarship true 3 POST
                [("name", "x"); ("country", "y"); ("link", "z"); ("min_gpa", "high")]
                [] store = Raise ValueError) by reflexivity.
  split; [exact H|].
  exact (proj1 (proj1 (admin_forms_raise_iff _ [] store 3 1 ValueError
                         eq_refl eq_refl)) H).
Defined.

Lemma edit_sent_twice :
  uploaded (lookup "image_file" (@nil (string * FileStorage))) = None /\
  uploaded (lookup "brochure_file" (@nil (string * FileStorage))) = None /\
  exists st1,
    edit_scholarship true 1 POST edit_form [] store = Ok st1 /\
    edit_scholarship true 1 POST edit_form [] st1 = Ok st1.
Proof.
  split; [reflexivity|]. split; [reflexivity|].
  eexists. split; [reflexivity|].
  apply (edit_twice_is_edit_once true 1 POST edit_form [] store);
    reflexivity.
Defined.

Lemma edit_leaves_identifiers :
  exists st',
    edit_scholarship true 1 POST edit_form [] store = Ok st' /\
    map col_id (scholarships_table st') = map col_id (scholarships_table store).
Proof.
  eexists. split; [reflexivity|].
  apply (edit_keeps_the_identifiers true 1 POST edit_form [] store).
  reflexivity.
Defined.

Definition checklist_form : Form :=
  [("name", "Fulbright Program"); ("country", "USA");
   ("link", "https://example.org/fulbright");
   ("checklist", Str.join crlf ["Transcript"; "Essay"; "Recommendation letter"])].

Lemma typed_three_items :
  find_by_id 1 (scholarships_table store) = Some fulbright /\
  storable ["Transcript"; "Essay"; "Recommendation letter"] /\
  Str.strip (Str.join crlf ["Transcript"; "Essay"; "Recommendation letter"])
  = Str.join crlf ["Transcript"; "Essay"; "Recommendation letter"] /\
  exists fl st',
    extract_fields checklist_form = Ok fl /\
    edit_scholarship true 1 POST checklist_form [] store = Ok st' /\
    option_map item_checklist (scholarship_detail 1 (scholarships_table st'))
    = Some ["Transcript"; "Essay"; "Recommendation letter"].
Proof.
  assert (Hst : storable ["Transcript"; "Essay"; "Recommendation letter"]).
  { split; [|reflexivity]. intros x [<-|[<-|[<-|[]]]]; reflexivity. }
  assert (Hstrip :
    Str.strip (Str.join crlf ["Transcript"; "Essay"; "Recommendation letter"])
    = Str.join crlf ["Transcript"; "Essay"; "Recommendation letter"])
    by reflexivity.
  split; [reflexivity|]. split; [exact Hst|]. split; [exact Hstrip|].
  eexists.
  destruct (typed_checklist_is_shown 1 checklist_form [] store fulbright _ crlf
              ["Transcript"; "Essay"; "Recommendation letter"]
              eq_refl eq_refl eq_refl eq_refl (or_intror eq_refl) eq_refl
              Hst Hstrip)
    as (st' & He & Hd).
  exists st'. split; [reflexivity|]. split; [exact He | exact Hd].
Defined.

(** *** Accounts *)

Definition ada_signup : Form :=
  [("email", " Ada@Example.org "); ("password", "analytical")].

Definition ada_login : Form :=
  [("email", "ADA@example.ORG"); ("password", "analytical")].

Lemma ada_signs_up_and_logs_in :
  hash_accepts_own_password /\
  (6 <= String.length "analytical")%nat /\
  find_user (normal_email " Ada@Example.org ") [] = None /\
  normal_email "ADA@example.ORG" = normal_email " Ada@Example.org " /\
  exists users',
    signup POST "salt" 1 ada_signup [] [] =
    Ok (Redirect "home", users', sign_in 1 "ada@example.org" 0 []) /\
    login POST ada_login users' [] =
    Ok (Redirect "home", sign_in 1 "ada@example.org" 0 []).
Proof.
  assert (Hlen : (6 <= String.length "analytical")%nat) by (simpl; lia).
  split; [exact plain_hash_accepts|]. split; [exact Hlen|].
  split; [reflexivity|]. split; [reflexivity|].
  destruct (signup_then_login "salt" 1 ada_signup ada_login [] [] []
              " Ada@Example.org " "ADA@example.ORG" "analytical"
              plain_hash_accepts eq_refl eq_refl Hlen eq_refl eq_refl eq_refl
              eq_refl)
    as (users' & Hs & _ & Hl).
  exists users'. split; [exact Hs | exact Hl].
Defined.

Definition one_admin : list User :=
  [{| user_id := 1; user_email := admin_email;
      user_password_hash := "admin123"; user_is_admin := 1 |}].

Lemma signup_beside_the_admin :
  exists resp users' session',
    signup POST "salt" 2 ada_signup one_admin [] = Ok (resp, users', session') /\
    filter is_admin_row users' = filter is_admin_row one_admin /\
    (NoDup (map user_email one_admin) -> NoDup (map user_email users')).
Proof.
  eexists. eexists. eexists. split; [reflexivity|].
  match goal with
  | |- filter _ ?u = _ /\ (_ -> NoDup (map _ ?u)) =>
      destruct (signup_keeps_the_accounts POST "salt" 2 ada_signup one_admin u
                  [] _ _ eq_refl) as (_ & Hf & Hn & _)
  end.
  split; [exact Hf | exact Hn].
Defined.

Lemma bootstrap_on_empty_table :
  exists users',
    seed_admin "salt" 1 [] = Some users' /\
    (exists u, In u users' /\ user_is_admin u = 1) /\
    seed_admin "pepper" 2 users' = Some users'.
Proof.
  eexists. split; [reflexivity|].
  destruct (seed_admin_once "salt" "pepper" 1 2 [] _ eq_refl) as (Ha & _ & Hi).
  split; [exact Ha | exact Hi].
Defined.

Lemma bootstrap_admin_logs_in :
  hash_accepts_own_password /\
  filter is_admin_row (@nil User) = [] /\
  find_user admin_email [] = None /\
  exists users',
    seed_admin "salt" 1 [] = Some users' /\
    admin_login POST [("email", admin_email); ("password", admin_password)]
      users' []
    = Ok (Redirect "admin_dashboard", sign_in 1 admin_email 1 []).
Proof.
  split; [exact plain_hash_accepts|]. split; [reflexivity|]. split; [reflexivity|].
  destruct (seeded_admin_logs_in "salt" 1 [] [] plain_hash_accepts eq_refl eq_refl)
    as (users' & Hs & Hl & _).
  exists users'. split; [exact Hs | exact Hl].
Defined.

Lemma ada_cannot_edit :
  exists users' session',
    signup POST "salt" 2 ada_signup one_admin [] = Ok (Redirect "home", users', session') /\
    edit_scholarship (admin_passes session') 1 POST edit_form [] store = Ok store /\
    add_scholarship (admin_passes session') 3 POST edit_form [] store = Ok store.
Proof.
  eexists. eexists. split; [reflexivity|].
  match goal with
  | |- edit_scholarship (admin_passes ?s) _ _ _ _ _ = _ /\ _ =>
      destruct (signed_up_client_is_no_admin "salt" 2 ada_signup one_admin _ []
                  s 1 3 POST edit_form [] store eq_refl) as ((He & Ha & _) & _)
  end.
  split; [exact He | exact Ha].
Defined.

(** *** The claims' lemmas on inputs *)

Lemma form_and_api_on_a_gpa :
  (Str.strip "3.7" <> "" /\
   exists g, float_of_str (Str.strip "3.7") = Some g /\
             JFloat (Fin (37 # 10)) = JFloat g) /\
  exists rows,
    eligibility POST
      [("country", "USA"); ("level", ""); ("field", ""); ("gpa", "3.7")] db
    = Ok rows /\
    api_eligibility_select
      (JObj [("country", JStr "USA"); ("level", JStr ""); ("field", JStr "");
             ("gpa", JFloat (Fin (37 # 10))); ("is_international", JBool false)]) db
    = Ok rows.
Proof.
  assert (H : Str.strip "3.7" <> "" /\
              exists g, float_of_str (Str.strip "3.7") = Some g /\
                        JFloat (Fin (37 # 10)) = JFloat g).
  { split; [discriminate|]. eexists. split; reflexivity. }
  split; [exact H|].
  exact (form_and_api_agree "USA" "" "" "3.7" false (JFloat (Fin (37 # 10))) db
           (or_intror H)).
Defined.

Lemma undated_listings_last_ascending :
  scholarships [("sort", "deadline_asc")] [chevening; rhodes; fulbright]
  = [make_item fulbright] ++ make_item chevening :: [make_item rhodes] /\
  parse_date (col_deadline chevening) = None /\
  parse_date (col_deadline rhodes) = None.
Proof.
  split; [reflexivity|]. split; [reflexivity|].
  exact (deadline_asc_unparsable_last [("sort", "deadline_asc")]
           [chevening; rhodes; fulbright] [make_item fulbright] [make_item rhodes]
           (make_item chevening) (make_item rhodes)
           eq_refl eq_refl eq_refl (or_introl eq_refl)).
Defined.

Lemma undated_listings_last_descending :
  (forall r, In r [chevening; rhodes; fulbright] ->
             parse_date (col_deadline r) <> Some datetime_min) /\
  scholarships [("sort", "deadline_desc")] [chevening; rhodes; fulbright]
  = [make_item fulbright] ++ make_item chevening :: [make_item rhodes] /\
  parse_date (col_deadline rhodes) = None.
Proof.
  assert (H : forall r, In r [chevening; rhodes; fulbright] ->
                        parse_date (col_deadline r) <> Some datetime_min).
  { intros r [<-|[<-|[<-|[]]]]; discriminate. }
  split; [exact H|]. split; [reflexivity|].
  exact (deadline_desc_unparsable_last [("sort", "deadline_desc")]
           [chevening; rhodes; fulbright] [make_item fulbright] [make_item rhodes]
           (make_item chevening) (make_item rhodes)
           eq_refl H eq_refl eq_refl (or_introl eq_refl)).
Defined.

End Runs.
